(** * kernel_upgrade.py: a shallow embedding and its verified properties

    The development follows [src/kernel_upgrade.py].  Python values are
    embedded as follows.

    - [str] is [string]; a character is a code point below 256.
    - [bytes] is [list Byte.byte].
    - an optional filename ([None] or a [str]) is [option string].
    - a Python list or tuple is a [list]; index assignment is stdpp's
      [<[i:=x]>], guarded by the range check that Python performs.
    - an uncaught exception is [Raise e]; the program never catches one,
      so an exception ends the run.
    - everything outside the process (the two HTML pages, the artifact
      downloads, the working directory, [sudo dpkg]) is an [Env] of
      answers and a [World] that records what was done. *)

From Stdlib Require Import ZArith Ascii String List Lia Permutation.
From stdpp Require Import base option list strings gmap.

Local Open Scope string_scope.
Local Open Scope list_scope.
Local Open Scope Z_scope.

(** ** Exceptions and the result of a computation *)

(** The exception classes the program can raise, each with the text of
    its message. *)
Inductive PyExc : Type :=
| AttributeError (msg : string)
| ValueError (msg : string)
| IndexError (msg : string)
| TypeError (msg : string)
| ConnectionError (msg : string)
| OSError (msg : string).

Inductive result (A : Type) : Type :=
| Ok (a : A)
| Raise (e : PyExc).
Arguments Ok {A} a.
Arguments Raise {A} e.

Definition rbind {A B : Type} (r : result A) (k : A -> result B) : result B :=
  match r with
  | Ok a => k a
  | Raise e => Raise e
  end.

Declare Scope result_scope.
Delimit Scope result_scope with res.
Notation "'let?' x ':=' r 'in' k" := (rbind r (fun x => k))
  (at level 10, x name, r at level 100, k at level 200) : result_scope.
Notation "r ';?' k" := (rbind r (fun _ => k))
  (at level 100, k at level 200, right associativity) : result_scope.
Local Open Scope result_scope.

(** ** Python primitives used by the program *)

Module Py.

(** [sub in s] on strings. *)
Fixpoint contains (sub s : string) : bool :=
  String.prefix sub s ||
  match s with
  | EmptyString => false
  | String _ s' => contains sub s'
  end.

(** [s.split(sep)] for a one-character separator. *)
Fixpoint split (sep : ascii) (s : string) : list string :=
  match s with
  | EmptyString => [EmptyString]
  | String c s' =>
      if Ascii.eqb c sep then EmptyString :: split sep s'
      else match split sep s' with
           | [] => [String c EmptyString]
           | tok :: toks => String c tok :: toks
           end
  end.

(** [sep.join(l)]. *)
Fixpoint join (sep : string) (l : list string) : string :=
  match l with
  | [] => EmptyString
  | [x] => x
  | x :: l' => x +:+ sep +:+ join sep l'
  end.

(** [c.isspace()] on code points below 256. *)
Definition isspace (c : ascii) : bool :=
  let n := nat_of_ascii c in
  ((9 <=? n)%nat && (n <=? 13)%nat) || ((28 <=? n)%nat && (n <=? 32)%nat)
  || (n =? 133)%nat || (n =? 160)%nat.

Fixpoint lstrip (s : string) : string :=
  match s with
  | EmptyString => EmptyString
  | String c s' => if isspace c then lstrip s' else s
  end.

Fixpoint rstrip (s : string) : string :=
  match s with
  | EmptyString => EmptyString
  | String c s' =>
      match rstrip s' with
      | EmptyString => if isspace c then EmptyString else String c EmptyString
      | t => String c t
      end
  end.

(** [s.strip()]. *)
Definition strip (s : string) : string := rstrip (lstrip s).

(** [s.split()]: the words between runs of white space. *)
Fixpoint split_ws_from (cur s : string) : list string :=
  match s with
  | EmptyString => match cur with EmptyString => [] | _ => [cur] end
  | String c s' =>
      if isspace c then
        match cur with
        | EmptyString => split_ws_from EmptyString s'
        | _ => cur :: split_ws_from EmptyString s'
        end
      else split_ws_from (cur +:+ String c EmptyString) s'
  end.
Definition split_ws (s : string) : list string := split_ws_from EmptyString s.

Definition upper (c : ascii) : ascii :=
  let n := nat_of_ascii c in
  if ((97 <=? n) && (n <=? 122))%nat then ascii_of_nat (n - 32) else c.
Definition lower (c : ascii) : ascii :=
  let n := nat_of_ascii c in
  if ((65 <=? n) && (n <=? 90))%nat then ascii_of_nat (n + 32) else c.
Fixpoint lower_all (s : string) : string :=
  match s with
  | EmptyString => EmptyString
  | String c s' => String (lower c) (lower_all s')
  end.

(** [s.capitalize()]; only the letters of ASCII change case here.  The
    program uses the result in log lines alone. *)
Definition capitalize (s : string) : string :=
  match s with
  | EmptyString => EmptyString
  | String c s' => String (upper c) (lower_all s')
  end.

(** [l[i]] with Python's negative indices. *)
Definition getitem {A : Type} (l : list A) (i : Z) : result A :=
  let n := Z.of_nat (List.length l) in
  let j := if i <? 0 then i + n else i in
  if (j <? 0) || (n <=? j) then Raise (IndexError "list index out of range")
  else match l !! Z.to_nat j with
       | Some x => Ok x
       | None => Raise (IndexError "list index out of range")
       end.

(** [l[i] = x] for a non-negative [i]. *)
Definition setitem {A : Type} (l : list A) (i : nat) (x : A) : result (list A) :=
  if (i <? List.length l)%nat then Ok (<[i:=x]> l)
  else Raise (IndexError "list assignment index out of range").

(** [t.index(x)]: the position of the first element equal to [x]. *)
Fixpoint index {A : Type} `{EqDecision A} (l : list A) (x : A) : result nat :=
  match l with
  | [] => Raise (ValueError "tuple.index(x): x not in tuple")
  | y :: l' => if decide (y = x) then Ok 0%nat
               else let? i := index l' x in Ok (S i)
  end.

(** [all(l)]. *)
Definition all (l : list bool) : bool := forallb (fun b => b) l.

(** How an optional string prints inside an f-string. *)
Definition fmt (o : option string) : string :=
  match o with
  | Some s => s
  | None => "None"
  end.

End Py.

(** ** The outside world *)

(** What [soupify] hands back, reduced to what the program reads from
    a page.  [td_latest_link] is the text of the [td] whose id is
    [latest_link], [None] when [find] does not locate it.  [body] is
    what [soup.find('body')] gives, [None] when there is no body; inside
    it, what [.find('code')] gives, [None] when there is no such
    element; inside that, the texts of the links with an [href], in
    document order. *)
Record Soup : Type := {
  td_latest_link : option string;
  body : option (option (list string))
}.

(** The links of a page that has both elements. *)
Definition body_code_links (soup : Soup) : option (list string) :=
  match body soup with
  | Some (Some links) => Some links
  | _ => None
  end.

(** The answers of the environment.  The [n]-th artifact download, the
    [n]-th process launch and the [n]-th opening of a file may answer
    differently from the earlier ones; a launched process maps what it
    reads on standard input to its exit status.  [fs_path] is the file
    that the operating system finds for a path, from the working
    directory; two paths name one file when it gives them one value.
    [fs_open] is the error of an opening for writing, [None] when the
    file can be opened. *)
Record Env : Type := {
  SUDO_PASS : option string;
  http_page : string -> result Soup;
  http_content : nat -> string -> result (list Byte.byte);
  spawn : nat -> list string -> result (string -> Z);
  fs_path : string -> string;
  fs_open : nat -> string -> option PyExc
}.

Inductive Event : Type :=
| EvPage (url : string)
| EvRemove (path : string)
| EvGet (url : string)
| EvWrite (name : string) (data : list Byte.byte)
| EvPopen (argv : list string)
| EvStdin (data : string).

(** The files (by the value of [fs_path], to their content), the open
    file handles with the names they were opened on, the number of
    downloads, launches and openings so far, and the calls made, oldest
    first. *)
Record World : Type := {
  w_files : gmap string (list Byte.byte);
  w_open : list (nat * string);
  w_gets : nat;
  w_popens : nat;
  w_opens : nat;
  w_trace : list Event
}.

Definition M (A : Type) : Type := World -> World * result A.

Definition ret {A : Type} (a : A) : M A := fun w => (w, Ok a).
Definition raise {A : Type} (e : PyExc) : M A := fun w => (w, Raise e).
Definition lift {A : Type} (r : result A) : M A := fun w => (w, r).
Definition bind {A B : Type} (m : M A) (k : A -> M B) : M B :=
  fun w => match m w with
           | (w', Ok a) => k a w'
           | (w', Raise e) => (w', Raise e)
           end.

Declare Scope prog_scope.
Delimit Scope prog_scope with prog.
Notation "'let*' x ':=' m 'in' k" := (bind m (fun x => k))
  (at level 10, x name, m at level 100, k at level 200) : prog_scope.
Notation "m '>>' k" := (bind m (fun _ => k))
  (at level 100, k at level 200, right associativity) : prog_scope.
Local Open Scope prog_scope.

Definition emit (e : Event) : M unit :=
  fun w => ({| w_files := w_files w; w_open := w_open w; w_gets := w_gets w;
               w_popens := w_popens w; w_opens := w_opens w;
               w_trace := w_trace w ++ [e] |}, Ok tt).

Module Os.

Section Calls.

Variable env : Env.

(** [os.path.exists(path)]. *)
Definition path_exists (path : string) : M bool :=
  fun w => (w, Ok (bool_decide (is_Some (w_files w !! fs_path env path)))).

(** [os.remove(path)]. *)
Definition remove (path : string) : M unit :=
  fun w => match w_files w !! fs_path env path with
           | None => (w, Raise (OSError "No such file or directory"))
           | Some _ =>
               ({| w_files := delete (fs_path env path) (w_files w);
                   w_open := w_open w; w_gets := w_gets w;
                   w_popens := w_popens w; w_opens := w_opens w;
                   w_trace := w_trace w ++ [EvRemove path] |}, Ok tt)
           end.

(** A handle that no open file has. *)
Definition fresh_handle (w : World) : nat := S (max_list (map fst (w_open w))).

(** [open(name, 'wb')]: when the file can be opened it is created or
    emptied, and the new handle is returned; otherwise the error of the
    operating system is raised and nothing is changed. *)
Definition open_wb (name : string) : M nat :=
  fun w => match fs_open env (w_opens w) name with
           | Some e =>
               ({| w_files := w_files w; w_open := w_open w;
                   w_gets := w_gets w; w_popens := w_popens w;
                   w_opens := S (w_opens w); w_trace := w_trace w |}, Raise e)
           | None =>
               ({| w_files := <[fs_path env name := []]> (w_files w);
                   w_open := (fresh_handle w, name) :: w_open w;
                   w_gets := w_gets w; w_popens := w_popens w;
                   w_opens := S (w_opens w);
                   w_trace := w_trace w |}, Ok (fresh_handle w))
           end.

Fixpoint handle_name (h : nat) (l : list (nat * string)) : option string :=
  match l with
  | [] => None
  | (h', name) :: l' => if Nat.eqb h' h then Some name else handle_name h l'
  end.

(** [f.write(data)]. *)
Definition write (f : nat) (data : list Byte.byte) : M unit :=
  fun w => match handle_name f (w_open w) with
           | None => (w, Raise (ValueError "I/O operation on closed file."))
           | Some name =>
               ({| w_files := <[fs_path env name :=
                                  default [] (w_files w !! fs_path env name) ++ data]>
                               (w_files w);
                   w_open := w_open w; w_gets := w_gets w;
                   w_popens := w_popens w; w_opens := w_opens w;
                   w_trace := w_trace w ++ [EvWrite name data] |}, Ok tt)
           end.

(** [f.close()]; closing a closed file does nothing. *)
Definition close (f : nat) : M unit :=
  fun w => ({| w_files := w_files w;
               w_open := filter (fun p => p.1 <> f) (w_open w);
               w_gets := w_gets w; w_popens := w_popens w;
               w_opens := w_opens w;
               w_trace := w_trace w |}, Ok tt).

(** [with open(name, 'wb') as f: body]: the handle is closed when the
    body is left, also by an exception; when the file cannot be opened
    the body is not run. *)
Definition with_open_wb {A : Type} (name : string) (body : nat -> M A)
  : M (nat * A) :=
  fun w => match open_wb name w with
           | (w1, Ok f) =>
               match body f w1 with
               | (w2, r) =>
                   (fst (close f w2),
                    match r with Ok a => Ok (f, a) | Raise e => Raise e end)
               end
           | (w1, Raise e) => (w1, Raise e)
           end.

End Calls.

End Os.

Section Program.

Variable env : Env.

(** [soupify(url)]. *)
Definition soupify (url : string) : M Soup :=
  emit (EvPage url) >> lift (http_page env url).

(** [requests.get(url).content]. *)
Definition requests_get_content (url : string) : M (list Byte.byte) :=
  fun w => ({| w_files := w_files w; w_open := w_open w;
               w_gets := S (w_gets w); w_popens := w_popens w;
               w_opens := w_opens w;
               w_trace := w_trace w ++ [EvGet url] |},
            http_content env (w_gets w) url).

(** [Popen(argv, ...)]. *)
Definition Popen (argv : list string) : M (string -> Z) :=
  fun w => ({| w_files := w_files w; w_open := w_open w;
               w_gets := w_gets w; w_popens := S (w_popens w);
               w_opens := w_opens w;
               w_trace := w_trace w ++ [EvPopen argv] |},
            spawn env (w_popens w) argv).

(** [p.communicate(data)] followed by [p.poll()]. *)
Definition communicate_poll (p : string -> Z) (data : string) : M Z :=
  emit (EvStdin data) >> ret (p data).

End Program.

(** ** class Kernel *)

Module Kernel.

Record obj : Type := {
  URL : string;
  major : string;
  minor : string;
  revision : string;
  ver_lst : list string;
  ver_str : string
}.

Section Methods.

Variable env : Env.

(** [_fetch_latest]: the text of the marker, stripped and split on the
    dots.  [find] gives [None] when the marker is absent, and [None] has
    no [getText]. *)
Definition _fetch_latest (self_URL : string) : M (list string) :=
  let* soup := soupify env self_URL in
  match td_latest_link soup with
  | None => raise (AttributeError "'NoneType' object has no attribute 'getText'")
  | Some text => ret (Py.split "." (Py.strip text))
  end.

(** [_update]: the three-way unpacking of the tuple, then the joined
    string.  A tuple of another length makes the unpacking raise
    [ValueError]; the texts are those of CPython 3.5 to 3.13 (later
    versions add the length to the second), and no statement below
    depends on them. *)
Definition _update (self_URL : string) : M obj :=
  let* kernel_ver := _fetch_latest self_URL in
  match kernel_ver with
  | [a; b; c] =>
      ret {| URL := self_URL; major := a; minor := b; revision := c;
             ver_lst := [a; b; c]; ver_str := Py.join "." [a; b; c] |}
  | [] => raise (ValueError "not enough values to unpack (expected 3, got 0)")
  | [_] => raise (ValueError "not enough values to unpack (expected 3, got 1)")
  | [_; _] => raise (ValueError "not enough values to unpack (expected 3, got 2)")
  | _ => raise (ValueError "too many values to unpack (expected 3)")
  end.

Definition __init__ : M obj := _update "https://kernel.org/".

Definition get_latest_ver (self : obj) : string := ver_str self.

End Methods.

End Kernel.

(** ** class Upgrade *)

Module Upgrade.

Record obj : Type := {
  URL : string;
  major : string;
  minor : string;
  revision : string;
  ver_lst : list string;
  ver_str : string;
  return_codes : list bool;
  kernel_version : string;
  packages : list (option string)
}.

Definition set_return_codes (self : obj) (rcs : list bool) : obj :=
  {| URL := URL self; major := major self; minor := minor self;
     revision := revision self; ver_lst := ver_lst self;
     ver_str := ver_str self; return_codes := rcs;
     kernel_version := kernel_version self; packages := packages self |}.

Definition set_packages (self : obj) (pk : list (option string)) : obj :=
  {| URL := URL self; major := major self; minor := minor self;
     revision := revision self; ver_lst := ver_lst self;
     ver_str := ver_str self; return_codes := return_codes self;
     kernel_version := kernel_version self; packages := pk |}.

(** [_shorten_name]: the name used in the log lines.  It is computed
    wherever a log line mentions a file, so its exceptions are part of
    the control flow: [None] has no [split], and a name with too few
    parts gives an index out of range. *)
Definition _shorten_name (filename : option string) : result string :=
  let? base :=
    match filename with
    | None => Raise (AttributeError "'NoneType' object has no attribute 'split'")
    | Some f => Ok (Py.split "-" f)
    end in
  let? base2 := Py.getitem base 2 in
  let? _ver := if Py.contains "unsigned" base2 then Py.getitem base 3
               else Py.getitem base 2 in
  let ver := "v" +:+ _ver in
  let? base1 := Py.getitem base 1 in
  let package := Py.capitalize base1 in
  let? last := Py.getitem base (-1) in
  let? part := Py.getitem (Py.split "_" last) 1 in
  let? arch := Py.getitem (Py.split "." part) 0 in
  Ok ("Linux-" +:+ package +:+ "-" +:+ ver +:+ " (" +:+ arch +:+ ")").

(** The body of the loop of [_deb_sort]. *)
Definition deb_sort_step (out : list (option string)) (f : string)
  : list (option string) :=
  if Py.contains "headers" f && Py.contains "all" f then <[0%nat := Some f]> out
  else if Py.contains "headers" f && Py.contains "generic" f then <[1%nat := Some f]> out
  else if Py.contains "modules" f && Py.contains "generic" f then <[2%nat := Some f]> out
  else if Py.contains "image" f && Py.contains "generic" f then <[3%nat := Some f]> out
  else out.

(** The list [out] of [_deb_sort] when its first loop is over. *)
Definition deb_sort_slots (files : list string) : list (option string) :=
  fold_left deb_sort_step files [None; None; None; None].

(** The second loop of [_deb_sort]: one log line per slot.  Python
    builds the text of a log line before [logging.debug] looks at the
    level, so [_shorten_name] runs on every slot. *)
Fixpoint log_slots (out : list (option string)) : result unit :=
  match out with
  | [] => Ok tt
  | o :: out' => _shorten_name o ;? log_slots out'
  end.

Definition _deb_sort (files : list string) : result (list (option string)) :=
  let out := deb_sort_slots files in
  log_slots out ;? Ok out.

(** The condition of the [if] in the loop of [fetch_deb_lst], with the
    evaluation order of [or] and [and]. *)
Definition keep (arch : string) (links : list string) (ittr : nat)
    (link : string) : result bool :=
  let? branch :=
    if Py.contains arch link && negb (Py.contains "BUILD.LOG" link) then Ok true
    else let? prev := Py.getitem links (Z.of_nat ittr - 1) in
         Ok (Py.contains arch prev && Py.contains "all" link) in
  Ok (branch && negb (Py.contains "lowlatency" link)).

(** The loop of [fetch_deb_lst] over [enumerate(links)], from index
    [ittr] on, with the list [out] built so far. *)
Fixpoint fetch_loop (arch : string) (links : list string) (ittr : nat)
    (rest : list string) (out : list string) : result (list string) :=
  match rest with
  | [] => Ok out
  | link :: rest' =>
      let? b := keep arch links ittr link in
      fetch_loop arch links (S ittr) rest' (if b then out ++ [link] else out)
  end.

(** [fetch_deb_lst] once the links of the page are known. *)
Definition resolve (arch : string) (links : list string)
  : result (list (option string)) :=
  let? out := fetch_loop arch links 0 links [] in
  _deb_sort out.

(** [_rc_check]: a zero return code is recorded at the position that
    [index] finds for the name. *)
Definition _rc_check (self : obj) (rc : Z) (deb_name : option string)
  : result obj :=
  if rc =? 0 then
    _shorten_name deb_name ;?
    let? i := Py.index (packages self) deb_name in
    let? rcs := Py.setitem (return_codes self) i true in
    let self := set_return_codes self rcs in
    _shorten_name deb_name ;?
    Py.index (packages self) deb_name ;?
    Ok self
  else Ok self.

Section Methods.

Variable env : Env.

Definition fetch_deb_lst (self : obj) (arch : string)
  : M (list (option string)) :=
  let* soup := soupify env (URL self +:+ "/v" +:+ kernel_version self +:+ "/") in
  match body soup with
  | None => raise (AttributeError "'NoneType' object has no attribute 'find'")
  | Some None => raise (AttributeError "'NoneType' object has no attribute 'find_all'")
  | Some (Some links) => lift (resolve arch links)
  end.

Definition _file_exists (filename : option string) : M bool :=
  let* b := Os.path_exists env ("./" +:+ Py.fmt filename) in
  if b then lift (_shorten_name filename) >> ret true
  else ret false.

Definition _delete_file (filename : option string) : M unit :=
  Os.remove env ("./" +:+ Py.fmt filename) >>
  lift (_shorten_name filename) >> ret tt.

Definition _get_pkg_data (self : obj) (filename : option string)
  : M (option string * list Byte.byte) :=
  let* b := _file_exists filename in
  (if b then _delete_file filename else ret tt) >>
  let* content := requests_get_content env
    (URL self +:+ "/v" +:+ kernel_version self +:+ "/" +:+ Py.fmt filename) in
  ret (filename, content).

Definition _write_pkg_data (fetch_resp : option string * list Byte.byte)
  : M unit :=
  let (name, resp) := fetch_resp in
  match name with
  | None => raise (TypeError "expected str, bytes or os.PathLike object, not NoneType")
  | Some name =>
      let* fa := Os.with_open_wb env name (fun f => Os.write env f resp) in
      Os.close (fst fa)
  end.

Definition get_deb (self : obj) (deb : option string) : M unit :=
  lift (_shorten_name deb) >>
  let* f := _get_pkg_data self deb in
  _write_pkg_data f.

Definition _install_deb (filename : option string) : M Z :=
  let command := Py.split_ws ("dpkg -i ./" +:+ Py.fmt filename) in
  let* p := Popen env (["sudo"; "-S"] ++ command) in
  let* data :=
    match SUDO_PASS env with
    | None => raise (TypeError "unsupported operand type(s) for +: 'NoneType' and 'str'")
    | Some pass => ret (pass +:+ String (ascii_of_nat 10) EmptyString)
    end in
  let* rc := communicate_poll p data in
  lift (_shorten_name filename) >>
  ret rc.

Definition install_deb (self : obj) (deb : option string) : M obj :=
  lift (_shorten_name deb) >>
  let* rc := _install_deb deb in
  lift (_rc_check self rc deb).

(** The loop of [install_all_debs] over the rest of [self.packages]. *)
Fixpoint install_loop (self : obj) (debs : list (option string)) : M obj :=
  match debs with
  | [] => ret self
  | deb :: debs' =>
      get_deb self deb >>
      let* self := install_deb self deb in
      install_loop self debs'
  end.

Definition install_all_debs (self : obj) : M obj :=
  install_loop self (packages self).

(** [__init__]; the attribute [packages] does not exist before
    [fetch_deb_lst] returns, and is not read before, so the empty list
    stands in for it until then. *)
Definition __init__ : M obj :=
  let* k := Kernel.__init__ env in
  let self :=
    {| URL := "https://kernel.ubuntu.com/~kernel-ppa/mainline";
       major := Kernel.major k; minor := Kernel.minor k;
       revision := Kernel.revision k; ver_lst := Kernel.ver_lst k;
       ver_str := Kernel.ver_str k;
       return_codes := [false; false; false; false];
       kernel_version := Kernel.get_latest_ver k;
       packages := [] |} in
  let* pk := fetch_deb_lst self "amd64" in
  let self := set_packages self pk in
  install_all_debs self.

End Methods.

End Upgrade.

(** [main], after the pause of [double_check]: the run, then whether
    the closing message is the one of success. *)
Definition main (env : Env) : M bool :=
  let* u := Upgrade.__init__ env in
  ret (Py.all (Upgrade.return_codes u)).

(** * Vocabulary of the statements *)

(** The world after one more call. *)
Definition logged (w : World) (e : Event) : World :=
  {| w_files := w_files w; w_open := w_open w; w_gets := w_gets w;
     w_popens := w_popens w; w_opens := w_opens w;
     w_trace := w_trace w ++ [e] |}.

(** The address of the version index. *)
Definition kernel_org : string := "https://kernel.org/".

(** The address of the directory listing of a version. *)
Definition listing_url (version : string) : string :=
  "https://kernel.ubuntu.com/~kernel-ppa/mainline" +:+ "/v" +:+ version +:+ "/".

(** The slot that the chain of tests of [_deb_sort] picks for a name:
    0 for the headers of all architectures, 1 for the headers of one,
    2 for the modules, 3 for the image. *)
Definition role_of (f : string) : option nat :=
  if Py.contains "headers" f && Py.contains "all" f then Some 0%nat
  else if Py.contains "headers" f && Py.contains "generic" f then Some 1%nat
  else if Py.contains "modules" f && Py.contains "generic" f then Some 2%nat
  else if Py.contains "image" f && Py.contains "generic" f then Some 3%nat
  else None.

(** The names of a list that go to slot [r], in the order of the list. *)
Definition of_role (r : nat) (files : list string) : list string :=
  filter (fun f => role_of f = Some r) files.

(** The test of the filter on a link, given the link that is read as
    the one before it ([None] when no link is read). *)
Definition passes (arch : string) (prev : option string) (link : string) : bool :=
  ((Py.contains arch link && negb (Py.contains "BUILD.LOG" link))
   || (from_option (Py.contains arch) false prev && Py.contains "all" link))
  && negb (Py.contains "lowlatency" link).

(** The links that the filter keeps among [rest], where [prev] is read
    as the link before the first of them. *)
Fixpoint kept (arch : string) (prev : option string) (rest : list string)
  : list string :=
  match rest with
  | [] => []
  | link :: rest' =>
      (if passes arch prev link then [link] else []) ++ kept arch (Some link) rest'
  end.

(** The filter as the specification words it: the link before the one
    at position [i] is the one at position [i - 1], and the first link
    has none. *)
Definition spec_passes (arch : string) (links : list string) (i : nat) : bool :=
  match links !! i with
  | None => false
  | Some link =>
      passes arch (match i with O => None | S j => links !! j end) link
  end.

(** A link that the filter drops wherever it stands. *)
Definition always_dropped (arch : string) (x : string) : Prop :=
  Py.contains "lowlatency" x = true \/
  (Py.contains "all" x = false /\
   (Py.contains "BUILD.LOG" x = true \/ Py.contains arch x = false)).

(** A link that the filter keeps wherever it stands. *)
Definition always_kept (arch : string) (x : string) : Prop :=
  Py.contains arch x = true /\ Py.contains "BUILD.LOG" x = false /\
  Py.contains "lowlatency" x = false.

(** A listing with one entry per role: the four entries are there and
    go to the four slots, the three with an architecture pass the
    filter on their own, the one for all architectures carries the
    marker, and every other entry is dropped by the filter or by the
    classification. *)
Definition valid_listing (arch : string) (l : list string)
    (hc ha mo im : string) : Prop :=
  hc ∈ l /\ ha ∈ l /\ mo ∈ l /\ im ∈ l /\
  role_of hc = Some 0%nat /\ role_of ha = Some 1%nat /\
  role_of mo = Some 2%nat /\ role_of im = Some 3%nat /\
  Py.contains "lowlatency" hc = false /\
  always_kept arch ha /\ always_kept arch mo /\ always_kept arch im /\
  forall x, x ∈ l ->
    x = hc \/ x = ha \/ x = mo \/ x = im \/ always_dropped arch x \/ role_of x = None.

(** The link that the loop reads as the one before position
    [length pre]: the last of [pre], and for the first position the
    last link of the whole listing. *)
Definition read_before (links pre : list string) : option string :=
  match last pre with
  | Some p => Some p
  | None => last links
  end.

(** The listing of the end-to-end example of the specification, and
    its entries by name. *)
Definition ex_headers_arch : string := "linux-headers-6.2.1-060201-generic_..._amd64.deb".
Definition ex_headers_all : string := "linux-headers-6.2.1-060201_all.deb".
Definition ex_modules : string := "linux-modules-6.2.1-060201-generic_..._amd64.deb".
Definition ex_image : string := "linux-image-unsigned-6.2.1-060201-generic_..._amd64.deb".
Definition ex_build_log : string := "...BUILD.LOG...".
Definition ex_lowlatency : string := "linux-image-...-lowlatency_..._amd64.deb".

Definition ex_listing : list string :=
  [ex_headers_arch; ex_headers_all; ex_modules; ex_image; ex_build_log; ex_lowlatency].

(** The same entries with the build log moved in front of the headers for
    all architectures. *)
Definition ex_shuffled : list string :=
  [ex_headers_arch; ex_build_log; ex_headers_all; ex_modules; ex_image; ex_lowlatency].

(** A listing whose first link is a package for all architectures. *)
Definition ex_all_first : list string := [ex_headers_all; ex_modules].

(** The files of the examples: plain names of the working directory,
    where a leading [./] changes nothing. *)
Fixpoint ex_path (p : string) : string :=
  match p with
  | String "."%char (String "/"%char p') => ex_path p'
  | _ => p
  end.

(** An environment for the examples: the index announces 6.2.1, the
    listing page has the given links, every download answers with the
    bytes of its own address, the [n]-th run of the installer exits
    with the [n]-th of the given codes, and every file can be opened. *)
Definition ex_env (links : list string) (exit_codes : list Z) : Env :=
  {| SUDO_PASS := Some "secret";
     http_page := fun url =>
       if String.eqb url "https://kernel.org/"
       then Ok {| td_latest_link := Some "6.2.1"; body := None |}
       else Ok {| td_latest_link := None; body := Some (Some links) |};
     http_content := fun _ url => Ok (list_byte_of_string url);
     spawn := fun n _ => Ok (fun _ => nth n exit_codes 0);
     fs_path := ex_path;
     fs_open := fun _ _ => None |}.

(** An empty working directory, before any call. *)
Definition ex_world : World :=
  {| w_files := ∅; w_open := []; w_gets := 0; w_popens := 0; w_opens := 0;
     w_trace := [] |}.

(** The exception of [_shorten_name] on an empty slot. *)
Definition none_has_no_split : PyExc :=
  AttributeError "'NoneType' object has no attribute 'split'".

(** The exception of an index out of range. *)
Definition index_out_of_range : PyExc :=
  IndexError "list index out of range".

(** The object of [Upgrade.__init__] when its plan has been resolved. *)
Definition upgrade_obj (a b c : string) (pk : list (option string)) : Upgrade.obj :=
  {| Upgrade.URL := "https://kernel.ubuntu.com/~kernel-ppa/mainline";
     Upgrade.major := a; Upgrade.minor := b; Upgrade.revision := c;
     Upgrade.ver_lst := [a; b; c]; Upgrade.ver_str := Py.join "." [a; b; c];
     Upgrade.return_codes := [false; false; false; false];
     Upgrade.kernel_version := Py.join "." [a; b; c];
     Upgrade.packages := pk |}.

(** The address an artifact is downloaded from. *)
Definition artifact_url (self : Upgrade.obj) (name : string) : string :=
  Upgrade.URL self +:+ "/v" +:+ Upgrade.kernel_version self +:+ "/" +:+ name.

(** The command line of the installer for an artifact. *)
Definition dpkg_argv (name : string) : list string :=
  ["sudo"; "-S"] ++ Py.split_ws ("dpkg -i ./" +:+ name).

Definition newline : string := String (ascii_of_nat 10) EmptyString.

(** The removal that a fetch starts with when the file is there. *)
Definition removal (env : Env) (w : World) (name : string) : list Event :=
  if decide (is_Some (w_files w !! fs_path env ("./" +:+ name)))
  then [EvRemove ("./" +:+ name)] else [].

(** The world after a fetch of [name] that answered [data]: the file
    that [./name] names is gone, the file that [name] names holds the
    data. *)
Definition after_get_deb (env : Env) (w : World) (url name : string)
    (data : list Byte.byte) : World :=
  {| w_files := <[fs_path env name := data]>
                  (delete (fs_path env ("./" +:+ name)) (w_files w));
     w_open := w_open w;
     w_gets := S (w_gets w);
     w_popens := w_popens w;
     w_opens := S (w_opens w);
     w_trace := w_trace w ++ removal env w name ++ [EvGet url; EvWrite name data] |}.

(** The world after the installer has run on [name]. *)
Definition after_install_deb (w : World) (name pass : string) : World :=
  {| w_files := w_files w;
     w_open := w_open w;
     w_gets := w_gets w;
     w_popens := S (w_popens w);
     w_opens := w_opens w;
     w_trace := w_trace w ++ [EvPopen (dpkg_argv name); EvStdin (pass +:+ newline)] |}.

(** The object after a return code has been checked for the name at
    position [i] of the packages. *)
Definition record_rc (self : Upgrade.obj) (i : nat) (rc : Z) : Upgrade.obj :=
  if rc =? 0
  then Upgrade.set_return_codes self (<[i := true]> (Upgrade.return_codes self))
  else self.

(** The calls that download an artifact or launch the installer. *)
Definition is_call (e : Event) : bool :=
  match e with
  | EvGet _ | EvPopen _ => true
  | _ => false
  end.

Definition calls (w : World) : list Event := List.filter is_call (w_trace w).

(** A working directory that holds a stale copy of the headers for all
    architectures. *)
Definition ex_stale_world : World :=
  {| w_files := {[ ex_headers_all := [Byte.x00] ]}; w_open := [];
     w_gets := 0; w_popens := 0; w_opens := 0; w_trace := [] |}.

(** The complete plan of the end-to-end example. *)
Definition ex_plan : list (option string) :=
  [Some ex_headers_all; Some ex_headers_arch; Some ex_modules; Some ex_image].

(** An environment whose index page has the given marker text, or no
    marker at all. *)
Definition ex_env_marker (marker : option string) : Env :=
  {| SUDO_PASS := Some "secret";
     http_page := fun _ =>
       Ok {| td_latest_link := marker; body := Some (Some ex_listing) |};
     http_content := fun _ url => Ok (list_byte_of_string url);
     spawn := fun _ _ => Ok (fun _ => 0);
     fs_path := ex_path;
     fs_open := fun _ _ => None |}.

(** A tuple of packages in which the modules stand in two slots. *)
Definition ex_twice : list (option string) :=
  [Some ex_headers_all; Some ex_modules; Some ex_modules; Some ex_image].

(** A position of the packages that repeats an earlier one. *)
Definition repeats_earlier (pk : list (option string)) (j : nat) : Prop :=
  exists (i : nat) (x : option string),
    (i < j)%nat /\ pk !! i = Some x /\ pk !! j = Some x.

(** The names that [_shorten_name] accepts: at least three parts
    between hyphens, a fourth one when the third contains "unsigned",
    and an underscore in the last part. *)
Definition loggable (f : string) : bool :=
  let base := Py.split "-" f in
  match base !! 2%nat, last base with
  | Some base2, Some tail =>
      (if Py.contains "unsigned" base2 then (4 <=? List.length base)%nat else true)
      && (2 <=? List.length (Py.split "_" tail))%nat
  | _, _ => false
  end.

(** Whether a string has a white-space character. *)
Fixpoint has_space (s : string) : bool :=
  match s with
  | EmptyString => false
  | String c s' => Py.isspace c || has_space s'
  end.

(** The exception of adding a string to the password that was not
    loaded. *)
Definition none_plus_str : PyExc :=
  TypeError "unsupported operand type(s) for +: 'NoneType' and 'str'".

(** The exception of a listing page without a body. *)
Definition none_has_no_find : PyExc :=
  AttributeError "'NoneType' object has no attribute 'find'".

(** The exception of a listing page whose body has no [code] element. *)
Definition none_has_no_find_all : PyExc :=
  AttributeError "'NoneType' object has no attribute 'find_all'".

(** An environment without network: no page, no download, no launch. *)
Definition ex_env_offline : Env :=
  {| SUDO_PASS := Some "secret";
     http_page := fun _ => Raise (ConnectionError "Max retries exceeded");
     http_content := fun _ _ => Raise (ConnectionError "Max retries exceeded");
     spawn := fun _ _ => Raise (OSError "No such file or directory");
     fs_path := ex_path;
     fs_open := fun _ _ => None |}.

(** An environment in which the password was not loaded. *)
Definition ex_env_no_password : Env :=
  {| SUDO_PASS := None;
     http_page := fun _ => Raise (ConnectionError "Max retries exceeded");
     http_content := fun _ url => Ok (list_byte_of_string url);
     spawn := fun _ _ => Ok (fun _ => 0);
     fs_path := ex_path;
     fs_open := fun _ _ => None |}.

(** What a computation may change from [w] to [w']: the open handles
    are the same, and so is every file that is not among [names]. *)
Definition untouched (names : list string) (w w' : World) : Prop :=
  w_open w' = w_open w /\
  forall k, k ∉ names -> w_files w' !! k = w_files w !! k.

(** A computation that, from every world and on every path, normal or
    exceptional, changes no more than that. *)
Definition keeps {A : Type} (names : list string) (m : M A) : Prop :=
  forall w, untouched names w (fst (m w)).

(** The files that a slot names: the one that is looked for and
    removed, under [./], and the one that is written. *)
Definition slot_files (env : Env) (deb : option string) : list string :=
  [fs_path env ("./" +:+ Py.fmt deb); fs_path env (Py.fmt deb)].

(** The number of launches in a list of calls. *)
Definition launches (t : list Event) : nat :=
  List.length (List.filter (fun e => match e with EvPopen _ => true | _ => false end) t).

(** Between the worlds [w] and [w'] the installer was launched on
    [name], was given the password on its standard input, and exited
    with status zero: the two calls are in the trace of [w'] after the
    trace of [w], and the process that the environment answered to
    that launch exits with zero on that input. *)
Definition launched_with_zero (env : Env) (w w' : World) (name : string) : Prop :=
  exists (before after : list Event) (proc : string -> Z) (pass : string),
    w_trace w' = w_trace w ++ before ++
      [EvPopen (dpkg_argv name); EvStdin (pass +:+ newline)] ++ after /\
    spawn env (w_popens w + launches before) (dpkg_argv name) = Ok proc /\
    SUDO_PASS env = Some pass /\
    proc (pass +:+ newline) = 0.

(** From [w] to [w'] the trace has grown by [t], and the number of
    launches by the launches in [t]. *)
Definition grown_by (w w' : World) (t : list Event) : Prop :=
  w_trace w' = w_trace w ++ t /\ w_popens w' = (w_popens w + launches t)%nat.

(** A computation that, from every world and on every path, only adds
    to the trace, and counts its launches. *)
Definition grows {A : Type} (m : M A) : Prop :=
  forall w, exists t, grown_by w (fst (m w)) t.

(** The two calls of a turn of the loop of [install_all_debs]: the
    download of the artifact, then the launch of the installer on it. *)
Definition turn_calls (self : Upgrade.obj) (deb : option string) : list Event :=
  [EvGet (Upgrade.URL self +:+ "/v" +:+ Upgrade.kernel_version self +:+ "/" +:+ Py.fmt deb);
   EvPopen (["sudo"; "-S"] ++ Py.split_ws ("dpkg -i ./" +:+ Py.fmt deb))].




(** An environment whose pages all have the marker 6.2.1 and the given
    body. *)
Definition ex_env_page (page_body : option (option (list string))) : Env :=
  {| SUDO_PASS := Some "secret";
     http_page := fun _ => Ok {| td_latest_link := Some "6.2.1"; body := page_body |};
     http_content := fun _ url => Ok (list_byte_of_string url);
     spawn := fun _ _ => Ok (fun _ => 0);
     fs_path := ex_path;
     fs_open := fun _ _ => None |}.
(** * Properties *)

(** ** Splitting and joining *)

Lemma split_cons (sep : ascii) (s : string) :
  exists tok toks, Py.split sep s = tok :: toks.
Proof.
  destruct s as [|c s]; simpl; [eauto|].
  destruct (Ascii.eqb c sep); [eauto|].
  destruct (Py.split sep s); eauto.
Qed.

Lemma join_cons_cons (sep x y : string) (l : list string) :
  Py.join sep (x :: y :: l) = x +:+ sep +:+ Py.join sep (y :: l).
Proof. reflexivity. Qed.

Lemma join_String (sep : string) (c : ascii) (tok : string) (toks : list string) :
  Py.join sep (String c tok :: toks) = String c (Py.join sep (tok :: toks)).
Proof. destruct toks; reflexivity. Qed.

Lemma join_split (sep : ascii) (s : string) :
  Py.join (String sep EmptyString) (Py.split sep s) = s.
Proof.
  induction s as [|c s IH]; simpl; [reflexivity|].
  destruct (Ascii.eqb_spec c sep) as [->|Hne].
  - destruct (split_cons sep s) as (tok & toks & E).
    rewrite E in *. rewrite join_cons_cons, IH. reflexivity.
  - destruct (split_cons sep s) as (tok & toks & E).
    rewrite E in *. rewrite join_String, IH. reflexivity.
Qed.

(** ** The monad of the program *)

Lemma bind_Ok {A B : Type} (m : M A) (k : A -> M B) (w w' : World) (a : A) :
  m w = (w', Ok a) -> bind m k w = k a w'.
Proof. unfold bind. intros ->. reflexivity. Qed.

Lemma bind_Raise {A B : Type} (m : M A) (k : A -> M B) (w w' : World) (e : PyExc) :
  m w = (w', Raise e) -> bind m k w = (w', Raise e).
Proof. unfold bind. intros ->. reflexivity. Qed.

Lemma soupify_run (env : Env) (url : string) (w : World) :
  soupify env url w = (logged w (EvPage url), http_page env url).
Proof. reflexivity. Qed.

(** ** Version resolution *)

Lemma fetch_latest_run (env : Env) (w : World) (soup : Soup) :
  http_page env kernel_org = Ok soup ->
  Kernel._fetch_latest env kernel_org w =
  (logged w (EvPage kernel_org),
   match td_latest_link soup with
   | None => Raise (AttributeError "'NoneType' object has no attribute 'getText'")
   | Some text => Ok (Py.split "." (Py.strip text))
   end).
Proof.
  intros Hp. unfold Kernel._fetch_latest, bind.
  rewrite soupify_run, Hp. destruct (td_latest_link soup); reflexivity.
Qed.

(** C6, as the code has it: version resolution fails whenever the
    split of the marker text on the dots does not give exactly three
    tokens, and whenever the marker element is absent.  The program has
    no error of its own for this: what ends the run is the [ValueError]
    of the three-way unpacking in [_update], or the [AttributeError] of
    calling [getText] on [None]; either is raised after the index page
    alone has been requested. *)
Theorem version_resolution_fails (env : Env) (w : World) (soup : Soup) :
  http_page env kernel_org = Ok soup ->
  match td_latest_link soup with
  | None => True
  | Some text => List.length (Py.split "." (Py.strip text)) <> 3%nat
  end ->
  exists e : PyExc,
    Kernel.__init__ env w = (logged w (EvPage kernel_org), Raise e) /\
    Upgrade.__init__ env w = (logged w (EvPage kernel_org), Raise e) /\
    match td_latest_link soup with
    | None => exists msg, e = AttributeError msg
    | Some _ => exists msg, e = ValueError msg
    end.
Proof.
  intros Hp Hbad.
  assert (Hk : exists e, Kernel.__init__ env w = (logged w (EvPage kernel_org), Raise e) /\
    match td_latest_link soup with
    | None => exists msg, e = AttributeError msg
    | Some _ => exists msg, e = ValueError msg
    end).
  { unfold Kernel.__init__, Kernel._update, bind.
    fold kernel_org. rewrite (fetch_latest_run env w soup Hp).
    destruct (td_latest_link soup) as [text|]; [|eauto].
    destruct (Py.split "." (Py.strip text)) as [|a [|b [|c [|d l]]]];
      simpl in *; try (eexists; split; [reflexivity|eauto]).
    congruence. }
  destruct Hk as (e & Hk & He). exists e. split; [exact Hk|]. split; [|exact He].
  unfold Upgrade.__init__. apply bind_Raise. exact Hk.
Qed.

(** Two tokens in the marker text, and no marker at all. *)
Lemma version_resolution_fails_witness :
  (exists e : PyExc,
     Kernel.__init__ (ex_env_marker (Some "6.2")) ex_world =
       (logged ex_world (EvPage kernel_org), Raise e) /\
     Upgrade.__init__ (ex_env_marker (Some "6.2")) ex_world =
       (logged ex_world (EvPage kernel_org), Raise e) /\
     exists msg, e = ValueError msg) /\
  (exists e : PyExc,
     Kernel.__init__ (ex_env_marker None) ex_world =
       (logged ex_world (EvPage kernel_org), Raise e) /\
     Upgrade.__init__ (ex_env_marker None) ex_world =
       (logged ex_world (EvPage kernel_org), Raise e) /\
     exists msg, e = AttributeError msg).
Proof.
  split.
  - refine (version_resolution_fails (ex_env_marker (Some "6.2")) ex_world
              {| td_latest_link := Some "6.2"; body := Some (Some ex_listing) |}
              eq_refl _).
    simpl. lia.
  - exact (version_resolution_fails (ex_env_marker None) ex_world
             {| td_latest_link := None; body := Some (Some ex_listing) |}
             eq_refl I).
Defined.

(** C6 as stated fails: the program has no [VersionParseError].  A
    marker text of two tokens and one of four end the run with the
    [ValueError] that Python raises for the unpacking of a tuple, and a
    page without the marker ends it with an [AttributeError]: two
    built-in exceptions of different classes, neither of them an error
    of version parsing. *)
Lemma version_parse_error_counterexample :
  (exists msg : string,
     snd (Upgrade.__init__ (ex_env_marker (Some "6.2")) ex_world) =
       Raise (ValueError msg)) /\
  (exists msg : string,
     snd (Upgrade.__init__ (ex_env_marker (Some "6.2.1.0")) ex_world) =
       Raise (ValueError msg)) /\
  (exists msg : string,
     snd (Upgrade.__init__ (ex_env_marker None) ex_world) =
       Raise (AttributeError msg)).
Proof.
  split; [|split]; eexists; vm_compute; reflexivity.
Qed.

(** C7: when the marker text is a string of three dot-separated tokens
    with no white space around it, the version string that [_update]
    builds from the parsed triple is that same string. *)
Theorem version_round_trip (env : Env) (w : World) (soup : Soup) (s : string) :
  http_page env kernel_org = Ok soup ->
  td_latest_link soup = Some s ->
  Py.strip s = s ->
  List.length (Py.split "." s) = 3%nat ->
  exists k : Kernel.obj,
    Kernel.__init__ env w = (logged w (EvPage kernel_org), Ok k) /\
    [Kernel.major k; Kernel.minor k; Kernel.revision k] = Py.split "." s /\
    Kernel.ver_lst k = Py.split "." s /\
    Kernel.get_latest_ver k = s.
Proof.
  intros Hp Hs Hstrip Hlen.
  unfold Kernel.__init__, Kernel._update, bind.
  fold kernel_org. rewrite (fetch_latest_run env w soup Hp), Hs, Hstrip.
  pose proof (join_split "." s) as Hj.
  destruct (Py.split "." s) as [|a [|b [|c [|d l]]]]; simpl in Hlen; try discriminate.
  eexists. split; [reflexivity|]. simpl. auto.
Qed.

(** The marker text 6.2.1. *)
Lemma version_round_trip_witness :
  exists k : Kernel.obj,
    Kernel.__init__ (ex_env_marker (Some "6.2.1")) ex_world =
      (logged ex_world (EvPage kernel_org), Ok k) /\
    [Kernel.major k; Kernel.minor k; Kernel.revision k] = Py.split "." "6.2.1" /\
    Kernel.ver_lst k = Py.split "." "6.2.1" /\
    Kernel.get_latest_ver k = "6.2.1".
Proof.
  exact (version_round_trip (ex_env_marker (Some "6.2.1")) ex_world
           {| td_latest_link := Some "6.2.1"; body := Some (Some ex_listing) |}
           "6.2.1" eq_refl eq_refl eq_refl eq_refl).
Defined.

(** ** Classification into the four slots *)

Lemma deb_sort_step_role (out : list (option string)) (f : string) :
  Upgrade.deb_sort_step out f =
  match role_of f with
  | Some r => <[r := Some f]> out
  | None => out
  end.
Proof.
  unfold Upgrade.deb_sort_step, role_of.
  repeat match goal with |- context [if ?b then _ else _] => destruct b end;
    reflexivity.
Qed.

Lemma deb_sort_step_length (out : list (option string)) (f : string) :
  List.length (Upgrade.deb_sort_step out f) = List.length out.
Proof.
  rewrite deb_sort_step_role. destruct (role_of f); [apply length_insert|reflexivity].
Qed.

Lemma of_role_cons (r : nat) (f : string) (files : list string) :
  of_role r (f :: files) =
  if decide (role_of f = Some r) then f :: of_role r files else of_role r files.
Proof. unfold of_role. rewrite filter_cons. reflexivity. Qed.

(** The slot [r] after the loop holds the last name of role [r], or
    what it held before when there is none. *)
Lemma fold_step_lookup (files : list string) (out : list (option string)) (r : nat) :
  (r < List.length out)%nat ->
  fold_left Upgrade.deb_sort_step files out !! r =
  match last (of_role r files) with
  | Some f => Some (Some f)
  | None => out !! r
  end.
Proof.
  revert out. induction files as [|f files IH]; intros out Hr; simpl; [reflexivity|].
  rewrite IH by (rewrite deb_sort_step_length; exact Hr).
  rewrite of_role_cons, deb_sort_step_role.
  destruct (decide (role_of f = Some r)) as [E|E].
  - rewrite E. destruct (of_role r files) as [|g gs] eqn:Eg.
    + simpl. apply list_lookup_insert_eq. exact Hr.
    + rewrite last_cons_cons. destruct (last (g :: gs)) eqn:El; [reflexivity|].
      apply last_None in El. discriminate.
  - destruct (last (of_role r files)); [reflexivity|].
    destruct (role_of f) as [r'|]; [|reflexivity].
    apply list_lookup_insert_ne. congruence.
Qed.

Lemma deb_sort_slots_lookup (files : list string) (r : nat) :
  (r < 4)%nat ->
  Upgrade.deb_sort_slots files !! r = Some (last (of_role r files)).
Proof.
  intros Hr. unfold Upgrade.deb_sort_slots.
  rewrite fold_step_lookup by (simpl; lia).
  destruct (last (of_role r files)); [reflexivity|].
  do 4 (destruct r as [|r]; [reflexivity|]). lia.
Qed.

Lemma deb_sort_slots_length (files : list string) :
  List.length (Upgrade.deb_sort_slots files) = 4%nat.
Proof.
  unfold Upgrade.deb_sort_slots.
  assert (H : forall out : list (option string),
             List.length (fold_left Upgrade.deb_sort_step files out) = List.length out).
  { induction files as [|f files IH]; intros out; simpl; [reflexivity|].
    rewrite IH. apply deb_sort_step_length. }
  rewrite H. reflexivity.
Qed.

(** The four slots, read one by one. *)
Lemma deb_sort_slots_eq (files : list string) :
  Upgrade.deb_sort_slots files =
  [last (of_role 0 files); last (of_role 1 files);
   last (of_role 2 files); last (of_role 3 files)].
Proof.
  apply list_eq. intros r.
  destruct (decide (r < 4)%nat) as [Hr|Hr].
  - rewrite deb_sort_slots_lookup by exact Hr.
    do 4 (destruct r as [|r]; [reflexivity|]). lia.
  - rewrite !lookup_ge_None_2; [reflexivity| simpl; lia |].
    rewrite deb_sort_slots_length. lia.
Qed.

Lemma deb_sort_slots_drop (l1 l2 : list string) (f : string) :
  role_of f = None ->
  Upgrade.deb_sort_slots (l1 ++ f :: l2) = Upgrade.deb_sort_slots (l1 ++ l2).
Proof.
  intros Hf. unfold Upgrade.deb_sort_slots.
  rewrite !fold_left_app. simpl.
  rewrite (deb_sort_step_role _ f), Hf. reflexivity.
Qed.

Lemma andb_true_both (a b : bool) : a && b = true <-> a = true /\ b = true.
Proof. destruct a, b; simpl; intuition congruence. Qed.

(** C5: the loop of [_deb_sort] classifies by the first test that
    matches, in the order headers for all architectures, headers for
    one, modules, image; a name that matches no test changes nothing,
    neither the slots nor the outcome of [_deb_sort]; and each slot
    holds the last name of its role in the order of the list. *)
Theorem classification_priority_drop_last_wins :
  (forall f : string,
     (role_of f = Some 0%nat <->
      Py.contains "headers" f = true /\ Py.contains "all" f = true) /\
     (role_of f = Some 1%nat <->
      Py.contains "headers" f = true /\ Py.contains "generic" f = true /\
      Py.contains "all" f = false) /\
     (role_of f = Some 2%nat <->
      Py.contains "modules" f = true /\ Py.contains "generic" f = true /\
      Py.contains "headers" f = false) /\
     (role_of f = Some 3%nat <->
      Py.contains "image" f = true /\ Py.contains "generic" f = true /\
      Py.contains "headers" f = false /\ Py.contains "modules" f = false)) /\
  (forall (out : list (option string)) (f : string),
     Upgrade.deb_sort_step out f =
     match role_of f with
     | Some r => <[r := Some f]> out
     | None => out
     end) /\
  (forall (l1 l2 : list string) (f : string),
     role_of f = None ->
     Upgrade.deb_sort_slots (l1 ++ f :: l2) = Upgrade.deb_sort_slots (l1 ++ l2) /\
     Upgrade._deb_sort (l1 ++ f :: l2) = Upgrade._deb_sort (l1 ++ l2)) /\
  (forall files : list string,
     Upgrade.deb_sort_slots files =
     [last (of_role 0 files); last (of_role 1 files);
      last (of_role 2 files); last (of_role 3 files)]).
Proof.
  split; [|split; [|split]].
  - intros f. unfold role_of.
    destruct (Py.contains "headers" f), (Py.contains "all" f),
      (Py.contains "generic" f), (Py.contains "modules" f),
      (Py.contains "image" f); simpl;
      repeat split; intros; repeat match goal with H : _ /\ _ |- _ => destruct H end;
      congruence.
  - exact deb_sort_step_role.
  - intros l1 l2 f Hf. pose proof (deb_sort_slots_drop l1 l2 f Hf) as E.
    split; [exact E|]. unfold Upgrade._deb_sort. rewrite E. reflexivity.
  - exact deb_sort_slots_eq.
Qed.

(** A run of the classification in which a name without a role stands
    between two names with one. *)
Lemma classification_priority_drop_last_wins_witness :
  role_of "BUILD.LOG.amd64" = None /\
  Upgrade.deb_sort_slots
    (["linux-headers-6.2.1_all.deb"] ++ "BUILD.LOG.amd64" :: ["linux-modules-6.2.1-generic_amd64.deb"]) =
  Upgrade.deb_sort_slots
    (["linux-headers-6.2.1_all.deb"] ++ ["linux-modules-6.2.1-generic_amd64.deb"]).
Proof.
  split; [reflexivity|].
  exact (proj1 (proj1 (proj2 (proj2 classification_priority_drop_last_wins))
                 ["linux-headers-6.2.1_all.deb"]
                 ["linux-modules-6.2.1-generic_amd64.deb"]
                 "BUILD.LOG.amd64" eq_refl)).
Defined.

(** ** The inclusion filter *)

Lemma getitem_nat {A : Type} (l : list A) (i : nat) (x : A) :
  l !! i = Some x -> Py.getitem l (Z.of_nat i) = Ok x.
Proof.
  intros H. pose proof (lookup_lt_Some _ _ _ H) as Hlt.
  unfold Py.getitem.
  destruct (Z.ltb_spec (Z.of_nat i) 0) as [?|_]; [lia|].
  destruct (Z.ltb_spec (Z.of_nat i) 0) as [?|_]; [lia|].
  destruct (Z.leb_spec (Z.of_nat (List.length l)) (Z.of_nat i)) as [?|_]; [lia|].
  simpl. rewrite Nat2Z.id, H. reflexivity.
Qed.

Lemma getitem_last {A : Type} (l : list A) (x : A) :
  last l = Some x -> Py.getitem l (-1) = Ok x.
Proof.
  intros H. rewrite last_lookup in H.
  pose proof (lookup_lt_Some _ _ _ H) as Hlt.
  unfold Py.getitem.
  change (-1 <? 0) with true. cbv iota.
  destruct (Z.ltb_spec (-1 + Z.of_nat (List.length l)) 0) as [?|_]; [lia|].
  destruct (Z.leb_spec (Z.of_nat (List.length l)) (-1 + Z.of_nat (List.length l))) as [?|_]; [lia|].
  simpl.
  replace (Z.to_nat (-1 + Z.of_nat (List.length l))) with (Nat.pred (List.length l)) by lia.
  rewrite H. reflexivity.
Qed.

Lemma keep_passes (arch : string) (pre rest : list string) (link : string) :
  Upgrade.keep arch (pre ++ link :: rest) (List.length pre) link =
  Ok (passes arch (read_before (pre ++ link :: rest) pre) link).
Proof.
  unfold Upgrade.keep, passes.
  destruct (Py.contains arch link && negb (Py.contains "BUILD.LOG" link)) eqn:E;
    [reflexivity|].
  simpl.
  assert (Hprev : exists p, read_before (pre ++ link :: rest) pre = Some p /\
            Py.getitem (pre ++ link :: rest) (Z.of_nat (List.length pre) - 1) = Ok p).
  { unfold read_before. destruct (last pre) as [p|] eqn:El.
    - exists p. split; [reflexivity|].
      rewrite last_lookup in El.
      assert (Hlen : (0 < List.length pre)%nat).
      { destruct pre; simpl in *; [discriminate|lia]. }
      replace (Z.of_nat (List.length pre) - 1) with (Z.of_nat (Nat.pred (List.length pre))) by lia.
      apply getitem_nat. rewrite lookup_app_l by lia. exact El.
    - apply last_None in El. subst pre. simpl.
      destruct (last (link :: rest)) as [p|] eqn:El.
      + exists p. split; [reflexivity|]. apply getitem_last. exact El.
      + apply last_None in El. discriminate. }
  destruct Hprev as (p & -> & ->). reflexivity.
Qed.

(** The loop of [fetch_deb_lst] never raises, and appends the kept
    links to its output. *)
Lemma fetch_loop_kept (arch : string) (rest pre out : list string) :
  Upgrade.fetch_loop arch (pre ++ rest) (List.length pre) rest out =
  Ok (out ++ kept arch (read_before (pre ++ rest) pre) rest).
Proof.
  revert pre out. induction rest as [|link rest IH]; intros pre out; simpl.
  - rewrite app_nil_r. reflexivity.
  - rewrite keep_passes. simpl.
    replace (pre ++ link :: rest) with ((pre ++ [link]) ++ rest)
      by (rewrite <- app_assoc; reflexivity).
    replace (S (List.length pre)) with (List.length (pre ++ [link]))
      by (rewrite length_app; simpl; lia).
    rewrite IH.
    replace (read_before ((pre ++ [link]) ++ rest) (pre ++ [link])) with (Some link)
      by (unfold read_before; rewrite last_snoc; reflexivity).
    destruct (passes arch (read_before ((pre ++ [link]) ++ rest) pre) link);
      simpl; rewrite <- ?app_assoc; reflexivity.
Qed.

Lemma fetch_loop_total (arch : string) (links : list string) :
  Upgrade.fetch_loop arch links 0 links [] = Ok (kept arch (last links) links).
Proof. exact (fetch_loop_kept arch links [] []). Qed.

Lemma resolve_kept (arch : string) (links : list string) :
  Upgrade.resolve arch links = Upgrade._deb_sort (kept arch (last links) links).
Proof. unfold Upgrade.resolve. rewrite fetch_loop_total. reflexivity. Qed.

(** From the second link on, the filter is the one of the
    specification: the link before is the one at the position before. *)
Lemma keep_spec_passes (arch : string) (links : list string) (i : nat) (link : string) :
  links !! S i = Some link ->
  Upgrade.keep arch links (S i) link = Ok (spec_passes arch links (S i)).
Proof.
  intros H. unfold spec_passes. rewrite H.
  destruct (list_elem_of_split_length links (S i) link H) as (pre & rest & -> & Hlen).
  rewrite Hlen at 1. rewrite keep_passes. f_equal. f_equal.
  unfold read_before. rewrite last_lookup.
  assert (Hp : Nat.pred (List.length pre) = i) by lia. rewrite Hp.
  rewrite (lookup_app_l pre) by lia.
  destruct (pre !! i) eqn:E; [reflexivity|].
  apply lookup_ge_None in E. lia.
Qed.

(** C3, at a listing whose first link is a package for all
    architectures: no link stands before the first one, so the filter
    of the specification drops it, yet the loop reads [links[-1]], the
    last link, finds the architecture there and keeps the first link. *)
Theorem filter_keeps_first_link_without_predecessor :
  spec_passes "amd64" ex_all_first 0 = false /\
  Upgrade.keep "amd64" ex_all_first 0 ex_headers_all = Ok true /\
  Upgrade.fetch_loop "amd64" ex_all_first 0 ex_all_first [] =
  Ok [ex_headers_all; ex_modules].
Proof. repeat split. Qed.

(** C9: for a first link that carries the marker "all" and not the
    marker of low latency, the test on the link before is made on the
    last link of the listing; the first link is kept whenever that last
    link contains the architecture. *)
Theorem first_link_is_tested_against_last_link
    (arch first final : string) (rest : list string) :
  last (first :: rest) = Some final ->
  Py.contains "all" first = true ->
  Py.contains "lowlatency" first = false ->
  Upgrade.keep arch (first :: rest) 0 first =
    Ok ((Py.contains arch first && negb (Py.contains "BUILD.LOG" first))
        || Py.contains arch final) /\
  (Py.contains arch final = true ->
   exists out : list string,
     Upgrade.fetch_loop arch (first :: rest) 0 (first :: rest) [] = Ok (first :: out)).
Proof.
  intros Hlast Hall Hll.
  pose proof (keep_passes arch [] rest first) as Hk. simpl in Hk.
  unfold read_before in Hk. simpl last at 1 in Hk. rewrite Hlast in Hk.
  unfold passes in Hk. simpl in Hk. rewrite Hall, Hll in Hk.
  rewrite !andb_true_r in Hk.
  split; [exact Hk|].
  intros Hfinal. rewrite fetch_loop_total, Hlast. simpl.
  unfold passes at 1. simpl. rewrite Hall, Hll, Hfinal.
  rewrite orb_true_r. simpl. eauto.
Qed.

Lemma first_link_is_tested_against_last_link_witness :
  exists out : list string,
    Upgrade.fetch_loop "amd64" ex_all_first 0 ex_all_first [] = Ok (ex_headers_all :: out).
Proof.
  exact (proj2 (first_link_is_tested_against_last_link
                  "amd64" ex_headers_all ex_modules [ex_modules]
                  eq_refl eq_refl eq_refl) eq_refl).
Defined.

(** ** Resolution of a plan from a listing *)

Lemma kept_elem (arch : string) (rest : list string) (prev : option string) (x : string) :
  x ∈ kept arch prev rest ->
  x ∈ rest /\ Py.contains "lowlatency" x = false /\
  ((Py.contains arch x = true /\ Py.contains "BUILD.LOG" x = false) \/
   Py.contains "all" x = true).
Proof.
  revert prev. induction rest as [|link rest IH]; intros prev H; simpl in H.
  - apply elem_of_nil in H. contradiction.
  - apply elem_of_app in H as [H|H].
    + destruct (passes arch prev link) eqn:E.
      * apply list_elem_of_singleton in H. subst x.
        split; [apply elem_of_cons; auto|].
        unfold passes in E.
        destruct (Py.contains "lowlatency" link), (Py.contains arch link),
          (Py.contains "BUILD.LOG" link), (Py.contains "all" link);
          simpl in E; rewrite ?andb_false_r in E; simpl in E; try discriminate; auto.
      * apply elem_of_nil in H. contradiction.
    + destruct (IH _ H) as (? & ? & ?). split; [apply elem_of_cons; auto|auto].
Qed.

Lemma kept_always (arch : string) (rest : list string) (prev : option string) (x : string) :
  always_kept arch x -> x ∈ rest -> x ∈ kept arch prev rest.
Proof.
  intros (Ha & Hb & Hl). revert prev.
  induction rest as [|link rest IH]; intros prev H.
  - apply elem_of_nil in H. contradiction.
  - simpl. apply elem_of_app. apply elem_of_cons in H as [<-|H].
    + left. unfold passes. rewrite Ha, Hb, Hl. simpl. apply list_elem_of_singleton. reflexivity.
    + right. apply IH. exact H.
Qed.

Lemma kept_after (arch : string) (l1 l2 : list string) (prev : option string) (p x : string) :
  Py.contains arch p = true ->
  Py.contains "all" x = true ->
  Py.contains "lowlatency" x = false ->
  x ∈ kept arch prev (l1 ++ p :: x :: l2).
Proof.
  intros Hp Ha Hl. revert prev.
  induction l1 as [|a l1 IH]; intros prev; simpl.
  - apply elem_of_app. right. apply elem_of_app. left.
    unfold passes. simpl. rewrite Hp, Ha, Hl. rewrite orb_true_r. simpl.
    apply list_elem_of_singleton. reflexivity.
  - apply elem_of_app. right. apply IH.
Qed.

Lemma always_dropped_not_kept (arch : string) (rest : list string)
    (prev : option string) (x : string) :
  always_dropped arch x -> x ∉ kept arch prev rest.
Proof.
  intros Hd Hk. apply kept_elem in Hk as (_ & Hl & Hc).
  destruct Hd as [Hd|(Hall & Hd)]; [congruence|].
  destruct Hc as [(Ha & Hb)|Hc]; [|congruence].
  destruct Hd; congruence.
Qed.

(** When one name of role [r] is among the files and no other name has
    that role, slot [r] holds it. *)
Lemma last_of_role_unique (r : nat) (files : list string) (e : string) :
  e ∈ files -> role_of e = Some r ->
  (forall x, x ∈ files -> role_of x = Some r -> x = e) ->
  last (of_role r files) = Some e.
Proof.
  intros He Hr Hu.
  assert (Hin : e ∈ of_role r files).
  { unfold of_role. apply list_elem_of_filter. auto. }
  destruct (last (of_role r files)) as [x|] eqn:El.
  - apply last_Some_elem_of in El. unfold of_role in El.
    apply list_elem_of_filter in El as (Hx & Hxin). f_equal. auto.
  - apply last_None in El. rewrite El in Hin. apply elem_of_nil in Hin. contradiction.
Qed.

Lemma valid_listing_perm (arch : string) (l l' : list string) (hc ha mo im : string) :
  valid_listing arch l hc ha mo im -> Permutation l l' ->
  valid_listing arch l' hc ha mo im.
Proof.
  intros (H1 & H2 & H3 & H4 & R0 & R1 & R2 & R3 & Hl & K1 & K2 & K3 & Hall) Hp.
  unfold valid_listing. rewrite <- !Hp.
  repeat (split; [assumption|]).
  intros x Hx. apply Hall. rewrite Hp. exact Hx.
Qed.

(** The slots of a valid listing in which an entry with the
    architecture stands right before the headers for all
    architectures. *)
Lemma valid_listing_slots (arch : string) (l l1 l2 : list string)
    (prev hc ha mo im : string) :
  valid_listing arch l hc ha mo im ->
  l = l1 ++ prev :: hc :: l2 ->
  Py.contains arch prev = true ->
  Py.contains "all" hc = true ->
  Upgrade.deb_sort_slots (kept arch (last l) l) = [Some hc; Some ha; Some mo; Some im].
Proof.
  intros (H1 & H2 & H3 & H4 & R0 & R1 & R2 & R3 & Hl & K1 & K2 & K3 & Hall) El Hp Ha.
  set (cands := kept arch (last l) l).
  assert (C0 : hc ∈ cands).
  { unfold cands. rewrite El at 2. apply kept_after; assumption. }
  assert (C1 : ha ∈ cands) by (apply kept_always; assumption).
  assert (C2 : mo ∈ cands) by (apply kept_always; assumption).
  assert (C3 : im ∈ cands) by (apply kept_always; assumption).
  assert (Hu : forall x, x ∈ cands ->
            x = hc \/ x = ha \/ x = mo \/ x = im \/ role_of x = None).
  { intros x Hx. pose proof (kept_elem _ _ _ _ Hx) as (Hin & _).
    destruct (Hall x Hin) as [?|[?|[?|[?|[Hd|?]]]]]; auto.
    exfalso. exact (always_dropped_not_kept _ _ _ _ Hd Hx). }
  rewrite deb_sort_slots_eq.
  rewrite (last_of_role_unique 0 cands hc), (last_of_role_unique 1 cands ha),
    (last_of_role_unique 2 cands mo), (last_of_role_unique 3 cands im);
    try assumption; try reflexivity;
    intros x Hx Hr; destruct (Hu x Hx) as [?|[?|[?|[?|?]]]]; subst; congruence.
Qed.

(** C4, as the code has it: a permutation of a valid listing resolves to
    the complete plan, the same whatever the order, when in the permuted
    listing an entry with the architecture token still stands right
    before the headers for all architectures (and the four names have
    the shape that the log lines of [_deb_sort] expect). *)
Theorem resolve_permutation_with_adjacency
    (arch : string) (l l' l1 l2 : list string) (prev hc ha mo im : string) :
  valid_listing arch l hc ha mo im ->
  Permutation l l' ->
  l' = l1 ++ prev :: hc :: l2 ->
  Py.contains arch prev = true ->
  Py.contains "all" hc = true ->
  Upgrade.log_slots [Some hc; Some ha; Some mo; Some im] = Ok tt ->
  Upgrade.resolve arch l' = Ok [Some hc; Some ha; Some mo; Some im].
Proof.
  intros Hv Hperm El Hp Ha Hlog.
  pose proof (valid_listing_perm _ _ _ _ _ _ _ Hv Hperm) as Hv'.
  rewrite resolve_kept. unfold Upgrade._deb_sort.
  rewrite (valid_listing_slots arch l' l1 l2 prev hc ha mo im Hv' El Hp Ha).
  rewrite Hlog. reflexivity.
Qed.

Ltac solve_listing_entry :=
  first
    [ left; reflexivity
    | right; left; reflexivity
    | right; right; left; reflexivity
    | right; right; right; left; reflexivity
    | right; right; right; right; left; left; reflexivity
    | right; right; right; right; left; right; split;
        [reflexivity | first [left; reflexivity | right; reflexivity]]
    | right; right; right; right; right; reflexivity ].

Lemma ex_listing_valid :
  valid_listing "amd64" ex_listing ex_headers_all ex_headers_arch ex_modules ex_image.
Proof.
  unfold valid_listing, always_kept, ex_listing.
  repeat (split; [first [reflexivity | set_solver]|]).
  intros x Hx.
  repeat (apply elem_of_cons in Hx as [->|Hx]; [solve_listing_entry|]).
  apply elem_of_nil in Hx. contradiction.
Qed.

Lemma ex_listing_shuffled : Permutation ex_listing ex_shuffled.
Proof.
  unfold ex_listing, ex_shuffled. apply perm_skip.
  symmetry.
  exact (Permutation_middle [ex_headers_all; ex_modules; ex_image] [ex_lowlatency] ex_build_log).
Qed.

(** The listing of the end-to-end example resolves to the complete
    plan, in the order it is given and with its two excluded entries
    exchanged. *)
Lemma resolve_permutation_with_adjacency_witness :
  Upgrade.resolve "amd64"
    [ex_headers_arch; ex_headers_all; ex_modules; ex_image; ex_lowlatency; ex_build_log] =
  Ok [Some ex_headers_all; Some ex_headers_arch; Some ex_modules; Some ex_image].
Proof.
  refine (resolve_permutation_with_adjacency "amd64" ex_listing _
            [] [ex_modules; ex_image; ex_lowlatency; ex_build_log]
            ex_headers_arch ex_headers_all ex_headers_arch ex_modules ex_image
            ex_listing_valid _ eq_refl eq_refl eq_refl eq_refl).
  unfold ex_listing. do 4 apply perm_skip. apply perm_swap.
Defined.

(** C4 as stated fails: the listing of the end-to-end example is valid
    and resolves to a complete plan, but the permutation that puts the
    build log right before the headers for all architectures leaves
    slot 0 empty, and resolution ends in an exception. *)
Lemma resolve_permutation_counterexample :
  valid_listing "amd64" ex_listing ex_headers_all ex_headers_arch ex_modules ex_image /\
  Permutation ex_listing ex_shuffled /\
  Upgrade.resolve "amd64" ex_listing =
    Ok [Some ex_headers_all; Some ex_headers_arch; Some ex_modules; Some ex_image] /\
  Upgrade.fetch_loop "amd64" ex_shuffled 0 ex_shuffled [] =
    Ok [ex_headers_arch; ex_modules; ex_image] /\
  Upgrade.deb_sort_slots [ex_headers_arch; ex_modules; ex_image] =
    [None; Some ex_headers_arch; Some ex_modules; Some ex_image] /\
  Upgrade.resolve "amd64" ex_shuffled =
    Raise (AttributeError "'NoneType' object has no attribute 'split'").
Proof.
  split; [exact ex_listing_valid|].
  split; [exact ex_listing_shuffled|].
  repeat split.
Qed.

(** ** The run up to the plan *)

Lemma getitem_exc {A : Type} (l : list A) (i : Z) (e : PyExc) :
  Py.getitem l i = Raise e -> e = index_out_of_range.
Proof.
  unfold Py.getitem, index_out_of_range.
  destruct ((_ <? 0) || _); [congruence|].
  destruct (l !! _); congruence.
Qed.

Lemma rbind_Raise_inv {A B : Type} (r : result A) (k : A -> result B) (e : PyExc) :
  rbind r k = Raise e -> r = Raise e \/ exists a, r = Ok a /\ k a = Raise e.
Proof.
  destruct r as [a|e']; simpl; intros H.
  - right. exists a. split; [reflexivity|exact H].
  - left. congruence.
Qed.

Lemma shorten_name_exc (o : option string) (e : PyExc) :
  Upgrade._shorten_name o = Raise e ->
  e = none_has_no_split \/ e = index_out_of_range.
Proof.
  unfold Upgrade._shorten_name. intros H.
  repeat match goal with
    | H : rbind _ _ = Raise _ |- _ =>
        apply rbind_Raise_inv in H as [H|(? & _ & H)]
    | H : (if ?b then _ else _) = Raise _ |- _ => destruct b
    | H : Py.getitem _ _ = Raise _ |- _ => apply getitem_exc in H; auto
    end.
  - destruct o; [discriminate|]. left. unfold none_has_no_split. congruence.
  - discriminate.
Qed.

Lemma log_slots_None (out : list (option string)) :
  None ∈ out ->
  exists e, Upgrade.log_slots out = Raise e /\
            (e = none_has_no_split \/ e = index_out_of_range).
Proof.
  induction out as [|o out IH]; intros H.
  - apply elem_of_nil in H. contradiction.
  - simpl. destruct (Upgrade._shorten_name o) as [s|e] eqn:E.
    + simpl. apply IH. apply elem_of_cons in H as [<-|H]; [discriminate|exact H].
    + simpl. exists e. split; [reflexivity|]. exact (shorten_name_exc _ _ E).
Qed.

Lemma kernel_init_run (env : Env) (w : World) (soup : Soup) (text a b c : string) :
  http_page env kernel_org = Ok soup ->
  td_latest_link soup = Some text ->
  Py.split "." (Py.strip text) = [a; b; c] ->
  Kernel.__init__ env w =
  (logged w (EvPage kernel_org),
   Ok {| Kernel.URL := kernel_org; Kernel.major := a; Kernel.minor := b;
         Kernel.revision := c; Kernel.ver_lst := [a; b; c];
         Kernel.ver_str := Py.join "." [a; b; c] |}).
Proof.
  intros Hp Ht Hs. unfold Kernel.__init__, Kernel._update, bind.
  fold kernel_org. rewrite (fetch_latest_run env w soup Hp), Ht, Hs. reflexivity.
Qed.

Lemma body_of_links (soup : Soup) (links : list string) :
  body_code_links soup = Some links -> body soup = Some (Some links).
Proof.
  unfold body_code_links. destruct (body soup) as [[l|]|]; congruence.
Qed.

Lemma upgrade_init_run (env : Env) (w : World) (soup0 soup1 : Soup)
    (text a b c : string) (links : list string) :
  http_page env kernel_org = Ok soup0 ->
  td_latest_link soup0 = Some text ->
  Py.split "." (Py.strip text) = [a; b; c] ->
  http_page env (listing_url (Py.join "." [a; b; c])) = Ok soup1 ->
  body_code_links soup1 = Some links ->
  Upgrade.__init__ env w =
  match Upgrade.resolve "amd64" links with
  | Ok pk =>
      Upgrade.install_all_debs env (upgrade_obj a b c pk)
        (logged (logged w (EvPage kernel_org))
           (EvPage (listing_url (Py.join "." [a; b; c]))))
  | Raise e =>
      (logged (logged w (EvPage kernel_org))
         (EvPage (listing_url (Py.join "." [a; b; c]))), Raise e)
  end.
Proof.
  intros Hp0 Ht Hs Hp1 Hl.
  unfold Upgrade.__init__.
  rewrite (bind_Ok _ _ _ _ _ (kernel_init_run env w soup0 text a b c Hp0 Ht Hs)).
  unfold Upgrade.fetch_deb_lst, Kernel.get_latest_ver. cbn [Kernel.ver_str Upgrade.URL Upgrade.kernel_version].
  fold (listing_url (Py.join "." [a; b; c])).
  unfold bind at 1. unfold bind at 1.
  rewrite soupify_run, Hp1, (body_of_links _ _ Hl). unfold lift.
  destruct (Upgrade.resolve "amd64" links) as [pk|e]; reflexivity.
Qed.

(** C1, as the code has it: when a slot is empty after the
    classification, the run ends in an exception and nothing has been
    downloaded or installed: the two pages are the only calls made.
    The exception is the one that the log lines of [_deb_sort] raise,
    on the empty slot or on a malformed name in a slot before it. *)
Theorem incomplete_plan_aborts_before_any_call
    (env : Env) (w : World) (soup0 soup1 : Soup) (text a b c : string)
    (links files : list string) (r : nat) :
  http_page env kernel_org = Ok soup0 ->
  td_latest_link soup0 = Some text ->
  Py.split "." (Py.strip text) = [a; b; c] ->
  http_page env (listing_url (Py.join "." [a; b; c])) = Ok soup1 ->
  body_code_links soup1 = Some links ->
  Upgrade.fetch_loop "amd64" links 0 links [] = Ok files ->
  Upgrade.deb_sort_slots files !! r = Some None ->
  exists (w' : World) (e : PyExc),
    Upgrade.__init__ env w = (w', Raise e) /\
    main env w = (w', Raise e) /\
    (e = none_has_no_split \/ e = index_out_of_range) /\
    w_trace w' = w_trace w ++
      [EvPage kernel_org; EvPage (listing_url (Py.join "." [a; b; c]))] /\
    w_gets w' = w_gets w /\ w_popens w' = w_popens w /\
    w_files w' = w_files w /\ w_open w' = w_open w.
Proof.
  intros Hp0 Ht Hs Hp1 Hl Hf Hr.
  assert (Hin : None ∈ Upgrade.deb_sort_slots files).
  { apply list_elem_of_lookup. eauto. }
  destruct (log_slots_None _ Hin) as (e & Hlog & He).
  assert (Hres : Upgrade.resolve "amd64" links = Raise e).
  { unfold Upgrade.resolve. rewrite Hf. simpl.
    unfold Upgrade._deb_sort. rewrite Hlog. reflexivity. }
  pose proof (upgrade_init_run env w soup0 soup1 text a b c links Hp0 Ht Hs Hp1 Hl) as Hrun.
  rewrite Hres in Hrun.
  eexists. exists e. split; [exact Hrun|].
  split; [unfold main; apply bind_Raise; exact Hrun|].
  split; [exact He|].
  simpl. rewrite <- app_assoc. auto.
Qed.

(** A listing without the modules: the run stops before any download. *)
Lemma incomplete_plan_aborts_before_any_call_witness :
  exists (w' : World) (e : PyExc),
    Upgrade.__init__ (ex_env [ex_headers_arch; ex_headers_all; ex_image] []) ex_world
      = (w', Raise e) /\
    main (ex_env [ex_headers_arch; ex_headers_all; ex_image] []) ex_world
      = (w', Raise e) /\
    (e = none_has_no_split \/ e = index_out_of_range) /\
    w_trace w' = w_trace ex_world ++
      [EvPage kernel_org; EvPage (listing_url (Py.join "." ["6"; "2"; "1"]))] /\
    w_gets w' = w_gets ex_world /\ w_popens w' = w_popens ex_world /\
    w_files w' = w_files ex_world /\ w_open w' = w_open ex_world.
Proof.
  exact (incomplete_plan_aborts_before_any_call
           (ex_env [ex_headers_arch; ex_headers_all; ex_image] []) ex_world
           {| td_latest_link := Some "6.2.1"; body := None |}
           {| td_latest_link := None;
              body := Some (Some [ex_headers_arch; ex_headers_all; ex_image]) |}
           "6.2.1" "6" "2" "1" [ex_headers_arch; ex_headers_all; ex_image]
           [ex_headers_arch; ex_headers_all; ex_image] 2
           eq_refl eq_refl eq_refl eq_refl eq_refl eq_refl eq_refl).
Defined.

(** C1 as stated fails: a listing without the modules and a listing
    without the image end the run with one and the same exception, an
    [AttributeError] about [None] and [split]; it is raised by a log
    line of the resolver and says nothing of the role that is missing. *)
Lemma incomplete_plan_error_counterexample :
  Upgrade.deb_sort_slots [ex_headers_arch; ex_headers_all; ex_image] =
    [Some ex_headers_all; Some ex_headers_arch; None; Some ex_image] /\
  Upgrade.deb_sort_slots [ex_headers_arch; ex_headers_all; ex_modules] =
    [Some ex_headers_all; Some ex_headers_arch; Some ex_modules; None] /\
  snd (Upgrade.__init__ (ex_env [ex_headers_arch; ex_headers_all; ex_image] []) ex_world) =
    Raise (AttributeError "'NoneType' object has no attribute 'split'") /\
  snd (Upgrade.__init__ (ex_env [ex_headers_arch; ex_headers_all; ex_modules] []) ex_world) =
    Raise (AttributeError "'NoneType' object has no attribute 'split'").
Proof. repeat split. Qed.

(** ** Fetching an artifact *)

Lemma filter_fresh_handle (l : list (nat * string)) :
  filter (fun p : nat * string => p.1 <> S (max_list (map fst l))) l = l.
Proof.
  assert (H : forall (l : list (nat * string)) (n : nat),
             (max_list (map fst l) < n)%nat ->
             filter (fun p : nat * string => p.1 <> n) l = l).
  { clear l. induction l as [|[h name] l IH]; intros n Hn; [reflexivity|].
    simpl in Hn. rewrite filter_cons. simpl.
    destruct (decide (h <> n)) as [_|Hh]; [|lia].
    rewrite IH by lia. reflexivity. }
  apply H. lia.
Qed.

Lemma write_pkg_data_run (env : Env) (name : string) (data : list Byte.byte) (w : World) :
  fs_open env (w_opens w) name = None ->
  Upgrade._write_pkg_data env (Some name, data) w =
  ({| w_files := <[fs_path env name := data]> (w_files w);
      w_open := w_open w; w_gets := w_gets w; w_popens := w_popens w;
      w_opens := S (w_opens w);
      w_trace := w_trace w ++ [EvWrite name data] |}, Ok tt).
Proof.
  intros Ho.
  unfold Upgrade._write_pkg_data, bind, Os.with_open_wb, Os.open_wb, Os.write,
    Os.close, Os.fresh_handle.
  rewrite Ho.
  cbn [w_open w_files w_gets w_popens w_opens w_trace Os.handle_name fst snd].
  rewrite Nat.eqb_refl.
  cbn [w_open w_files w_gets w_popens w_opens w_trace fst snd].
  rewrite lookup_insert_eq. simpl default. rewrite insert_insert_eq.
  rewrite (filter_cons (fun p : nat * string => p.1 <> S (max_list (map fst (w_open w))))).
  destruct (decide _) as [Hne|_]; [simpl in Hne; congruence|].
  rewrite !filter_fresh_handle. reflexivity.
Qed.

Lemma write_pkg_data_fails (env : Env) (name : string) (data : list Byte.byte)
    (e : PyExc) (w : World) :
  fs_open env (w_opens w) name = Some e ->
  Upgrade._write_pkg_data env (Some name, data) w =
  ({| w_files := w_files w; w_open := w_open w; w_gets := w_gets w;
      w_popens := w_popens w; w_opens := S (w_opens w);
      w_trace := w_trace w |}, Raise e).
Proof.
  intros Ho.
  unfold Upgrade._write_pkg_data, bind, Os.with_open_wb, Os.open_wb.
  rewrite Ho. reflexivity.
Qed.

Lemma get_pkg_data_run (env : Env) (self : Upgrade.obj) (name short : string) (w : World) :
  Upgrade._shorten_name (Some name) = Ok short ->
  Upgrade._get_pkg_data env self (Some name) w =
  ({| w_files := delete (fs_path env ("./" +:+ name)) (w_files w);
      w_open := w_open w; w_gets := S (w_gets w); w_popens := w_popens w;
      w_opens := w_opens w;
      w_trace := (w_trace w ++ removal env w name) ++ [EvGet (artifact_url self name)] |},
   rbind (http_content env (w_gets w) (artifact_url self name))
         (fun content => Ok (Some name, content))).
Proof.
  intros Hs.
  unfold Upgrade._get_pkg_data, Upgrade._file_exists, Upgrade._delete_file,
    Os.path_exists, Os.remove, requests_get_content, removal, bind, lift, ret.
  cbn [Py.fmt]. rewrite Hs.
  fold (artifact_url self name).
  destruct (w_files w !! fs_path env ("./" +:+ name)) as [old|] eqn:E.
  - rewrite bool_decide_eq_true_2 by eauto.
    rewrite decide_True by eauto.
    rewrite E. cbn [w_files w_open w_gets w_popens w_opens w_trace].
    destruct (http_content env (w_gets w) (artifact_url self name)); reflexivity.
  - rewrite bool_decide_eq_false_2 by (intros [? ?]; discriminate).
    rewrite decide_False by (intros [? ?]; discriminate).
    cbn [w_files w_open w_gets w_popens w_opens w_trace].
    rewrite app_nil_r, (delete_id (w_files w)) by exact E.
    destruct (http_content env (w_gets w) (artifact_url self name)); reflexivity.
Qed.

Lemma get_deb_run (env : Env) (self : Upgrade.obj) (name short : string)
    (data : list Byte.byte) (w : World) :
  Upgrade._shorten_name (Some name) = Ok short ->
  http_content env (w_gets w) (artifact_url self name) = Ok data ->
  fs_open env (w_opens w) name = None ->
  Upgrade.get_deb env self (Some name) w =
  (after_get_deb env w (artifact_url self name) name data, Ok tt).
Proof.
  intros Hs Hc Ho. unfold Upgrade.get_deb.
  unfold bind at 1. unfold lift. rewrite Hs.
  unfold bind. rewrite (get_pkg_data_run env self name short w Hs), Hc.
  cbn [rbind]. rewrite write_pkg_data_run by exact Ho.
  cbn [w_files w_open w_gets w_popens w_opens w_trace]. unfold after_get_deb.
  rewrite <- !app_assoc. reflexivity.
Qed.

Lemma get_deb_open_fails (env : Env) (self : Upgrade.obj) (name short : string)
    (data : list Byte.byte) (e : PyExc) (w : World) :
  Upgrade._shorten_name (Some name) = Ok short ->
  http_content env (w_gets w) (artifact_url self name) = Ok data ->
  fs_open env (w_opens w) name = Some e ->
  Upgrade.get_deb env self (Some name) w =
  ({| w_files := delete (fs_path env ("./" +:+ name)) (w_files w);
      w_open := w_open w; w_gets := S (w_gets w); w_popens := w_popens w;
      w_opens := S (w_opens w);
      w_trace := (w_trace w ++ removal env w name) ++ [EvGet (artifact_url self name)] |},
   Raise e).
Proof.
  intros Hs Hc Ho. unfold Upgrade.get_deb.
  unfold bind at 1. unfold lift. rewrite Hs.
  unfold bind. rewrite (get_pkg_data_run env self name short w Hs), Hc.
  cbn [rbind]. rewrite (write_pkg_data_fails env name data e) by exact Ho.
  reflexivity.
Qed.



(** ** Installing an artifact *)

Lemma install_deb_run (env : Env) (self : Upgrade.obj) (name short pass : string)
    (proc : string -> Z) (w : World) :
  Upgrade._shorten_name (Some name) = Ok short ->
  SUDO_PASS env = Some pass ->
  spawn env (w_popens w) (dpkg_argv name) = Ok proc ->
  Upgrade.install_deb env self (Some name) w =
  (after_install_deb w name pass,
   Upgrade._rc_check self (proc (pass +:+ newline)) (Some name)).
Proof.
  intros Hs Hp Hl.
  unfold Upgrade.install_deb, Upgrade._install_deb, Popen, communicate_poll,
    emit, bind, lift, ret. cbn [Py.fmt].
  fold (dpkg_argv name). rewrite Hs, Hl, Hp.
  cbn [w_files w_open w_gets w_popens w_trace].
  unfold after_install_deb. fold newline. rewrite <- !app_assoc. reflexivity.
Qed.

(** [index] finds the first position of an element. *)
Lemma index_first {A : Type} `{EqDecision A} (l : list A) (x : A) (i : nat) :
  l !! i = Some x -> (forall k, (k < i)%nat -> l !! k <> Some x) ->
  Py.index l x = Ok i.
Proof.
  revert i. induction l as [|y l IH]; intros i Hi Hfirst; [discriminate|].
  simpl. destruct (decide (y = x)) as [->|Hne].
  - destruct i as [|i]; [reflexivity|].
    exfalso. apply (Hfirst 0%nat); [lia|reflexivity].
  - destruct i as [|i]; [simpl in Hi; congruence|].
    rewrite (IH i); [reflexivity|exact Hi|].
    intros k Hk. apply (Hfirst (S k)). lia.
Qed.

Lemma index_Ok_inv {A : Type} `{EqDecision A} (l : list A) (x : A) (i : nat) :
  Py.index l x = Ok i ->
  l !! i = Some x /\ forall k, (k < i)%nat -> l !! k <> Some x.
Proof.
  revert i. induction l as [|y l IH]; intros i H; [discriminate|].
  simpl in H. destruct (decide (y = x)) as [->|Hne].
  - injection H as <-. split; [reflexivity|]. intros k Hk. lia.
  - destruct (Py.index l x) as [j|e] eqn:E; [|discriminate].
    simpl in H. injection H as <-.
    destruct (IH j eq_refl) as [Hj Hfirst]. split; [exact Hj|].
    intros [|k] Hk; simpl; [congruence|]. apply Hfirst. lia.
Qed.

Lemma rc_check_run (self : Upgrade.obj) (rc : Z) (deb : option string)
    (short : string) (i : nat) :
  Upgrade._shorten_name deb = Ok short ->
  Py.index (Upgrade.packages self) deb = Ok i ->
  (i < List.length (Upgrade.return_codes self))%nat ->
  Upgrade._rc_check self rc deb = Ok (record_rc self i rc).
Proof.
  intros Hs Hi Hlen. unfold Upgrade._rc_check, record_rc.
  destruct (rc =? 0); [|reflexivity].
  rewrite Hs, Hi. cbn [rbind]. unfold Py.setitem.
  destruct (Nat.ltb_spec i (List.length (Upgrade.return_codes self))) as [_|?]; [|lia].
  cbn [rbind Upgrade.set_return_codes Upgrade.packages]. rewrite Hi. reflexivity.
Qed.


(** ** The whole run *)





Lemma calls_removal (env : Env) (w : World) (name : string) :
  List.filter is_call (removal env w name) = [].
Proof. unfold removal. destruct (decide _); reflexivity. Qed.



Lemma log_slots_cons_inv (o : option string) (out : list (option string)) :
  Upgrade.log_slots (o :: out) = Ok tt ->
  (exists short, Upgrade._shorten_name o = Ok short) /\ Upgrade.log_slots out = Ok tt.
Proof.
  simpl. destruct (Upgrade._shorten_name o) as [short|e]; simpl; [eauto|discriminate].
Qed.

Lemma deb_sort_Ok_inv (files : list string) (pk : list (option string)) :
  Upgrade._deb_sort files = Ok pk ->
  pk = Upgrade.deb_sort_slots files /\ Upgrade.log_slots pk = Ok tt.
Proof.
  unfold Upgrade._deb_sort.
  destruct (Upgrade.log_slots (Upgrade.deb_sort_slots files)) as [[]|e] eqn:E;
    simpl; [|discriminate].
  intros H. injection H as <-. auto.
Qed.




(** ** Where a success is recorded *)

Lemma bind_Ok_inv {A B : Type} (m : M A) (k : A -> M B) (w w' : World) (b : B) :
  bind m k w = (w', Ok b) ->
  exists (w1 : World) (a : A), m w = (w1, Ok a) /\ k a w1 = (w', Ok b).
Proof.
  unfold bind. destruct (m w) as [w1 [a|e]]; intros H; [eauto|discriminate].
Qed.

Lemma rc_check_Ok_inv (self self' : Upgrade.obj) (rc : Z) (deb : option string) :
  Upgrade._rc_check self rc deb = Ok self' ->
  self' = self \/
  exists i, Py.index (Upgrade.packages self) deb = Ok i /\
            self' = Upgrade.set_return_codes self (<[i := true]> (Upgrade.return_codes self)).
Proof.
  unfold Upgrade._rc_check. destruct (rc =? 0); [|intros H; left; congruence].
  destruct (Upgrade._shorten_name deb) as [short|e]; [|discriminate].
  cbn [rbind].
  destruct (Py.index (Upgrade.packages self) deb) as [i|e] eqn:Ei; [|discriminate].
  cbn [rbind]. unfold Py.setitem.
  destruct (i <? List.length (Upgrade.return_codes self))%nat; [|discriminate].
  cbn [rbind Upgrade.set_return_codes Upgrade.packages]. rewrite Ei. cbn [rbind].
  intros H. right. exists i. split; [reflexivity|congruence].
Qed.

Lemma rc_check_keeps_repeated (self self' : Upgrade.obj) (rc : Z)
    (deb : option string) :
  Upgrade._rc_check self rc deb = Ok self' ->
  Upgrade.packages self' = Upgrade.packages self /\
  forall j, repeats_earlier (Upgrade.packages self) j ->
            Upgrade.return_codes self' !! j = Upgrade.return_codes self !! j.
Proof.
  intros H. apply rc_check_Ok_inv in H as [->|(i & Hi & ->)]; [auto|].
  split; [reflexivity|]. intros j (i' & x & Hlt & Hi' & Hj).
  cbn [Upgrade.set_return_codes Upgrade.return_codes].
  apply list_lookup_insert_ne. intros <-.
  apply index_Ok_inv in Hi as [Hi Hfirst].
  apply (Hfirst i' Hlt). congruence.
Qed.

Lemma install_deb_Ok_inv (env : Env) (self self' : Upgrade.obj)
    (deb : option string) (w w' : World) :
  Upgrade.install_deb env self deb w = (w', Ok self') ->
  exists rc, Upgrade._rc_check self rc deb = Ok self'.
Proof.
  unfold Upgrade.install_deb. intros H.
  apply bind_Ok_inv in H as (w1 & _ & _ & H).
  apply bind_Ok_inv in H as (w2 & rc & _ & H).
  unfold lift in H. exists rc. congruence.
Qed.

Lemma install_loop_keeps_repeated (env : Env) (debs : list (option string))
    (self self' : Upgrade.obj) (w w' : World) :
  Upgrade.install_loop env self debs w = (w', Ok self') ->
  Upgrade.packages self' = Upgrade.packages self /\
  forall j, repeats_earlier (Upgrade.packages self) j ->
            Upgrade.return_codes self' !! j = Upgrade.return_codes self !! j.
Proof.
  revert self w. induction debs as [|deb debs IH]; intros self w H.
  - cbn in H. unfold ret in H. injection H as _ <-. auto.
  - cbn [Upgrade.install_loop] in H.
    apply bind_Ok_inv in H as (w1 & _ & _ & H).
    apply bind_Ok_inv in H as (w2 & self1 & H1 & H).
    apply install_deb_Ok_inv in H1 as (rc & H1).
    apply rc_check_keeps_repeated in H1 as [Hpk1 Hrc1].
    apply IH in H as [Hpk Hrc]. split; [congruence|].
    intros j Hj. rewrite Hrc by (rewrite Hpk1; exact Hj). apply Hrc1. exact Hj.
Qed.

(** C10: a success is recorded at the position that [index] gives, the
    first one that holds the name; so when two slots hold one name, the
    successes of both go to the earlier slot, and the outcome of the
    later slot is after the run what it was before it. *)
Theorem success_is_recorded_at_first_occurrence :
  (forall (self : Upgrade.obj) (deb : option string) (short : string) (i : nat),
     Upgrade._shorten_name deb = Ok short ->
     Upgrade.packages self !! i = Some deb ->
     (forall k, (k < i)%nat -> Upgrade.packages self !! k <> Some deb) ->
     (i < List.length (Upgrade.return_codes self))%nat ->
     Upgrade._rc_check self 0 deb =
     Ok (Upgrade.set_return_codes self (<[i := true]> (Upgrade.return_codes self)))) /\
  (forall (env : Env) (self self' : Upgrade.obj) (w w' : World)
          (i j : nat) (x : option string),
     Upgrade.install_all_debs env self w = (w', Ok self') ->
     (i < j)%nat ->
     Upgrade.packages self !! i = Some x ->
     Upgrade.packages self !! j = Some x ->
     Upgrade.return_codes self' !! j = Upgrade.return_codes self !! j).
Proof.
  split.
  - intros self deb short i Hs Hi Hfirst Hlen.
    rewrite (rc_check_run self 0 deb short i Hs (index_first _ _ _ Hi Hfirst) Hlen).
    reflexivity.
  - intros env self self' w w' i j x Hrun Hlt Hi Hj.
    unfold Upgrade.install_all_debs in Hrun.
    apply install_loop_keeps_repeated in Hrun as [_ Hrc].
    apply Hrc. exists i, x. auto.
Qed.

(** A run on a tuple with the modules in slots 1 and 2, every installer
    exiting with status 0: slot 1 is a success and slot 2 is still a
    failure. *)
Lemma success_is_recorded_at_first_occurrence_witness :
  Upgrade._rc_check (upgrade_obj "6" "2" "1" ex_twice) 0 (Some ex_modules) =
    Ok (Upgrade.set_return_codes (upgrade_obj "6" "2" "1" ex_twice)
          [false; true; false; false]) /\
  exists (w' : World),
    Upgrade.install_all_debs (ex_env ex_listing []) (upgrade_obj "6" "2" "1" ex_twice) ex_world =
      (w', Ok (Upgrade.set_return_codes (upgrade_obj "6" "2" "1" ex_twice)
                 [true; true; false; true])) /\
    [true; true; false; true] !! 2%nat = [false; false; false; false] !! 2%nat.
Proof.
  split.
  - refine (proj1 success_is_recorded_at_first_occurrence
              (upgrade_obj "6" "2" "1" ex_twice) (Some ex_modules)
              "Linux-Modules-v6.2.1 ()" 1%nat eq_refl eq_refl _ _).
    + intros [|k] Hk; [discriminate|lia].
    + simpl. lia.
  - remember (Upgrade.install_all_debs (ex_env ex_listing [])
                (upgrade_obj "6" "2" "1" ex_twice) ex_world) as run eqn:E.
    assert (H : snd run =
                Ok (Upgrade.set_return_codes (upgrade_obj "6" "2" "1" ex_twice)
                      [true; true; false; true])).
    { subst run. vm_compute. reflexivity. }
    destruct run as [w' r]. simpl in H. subst r. symmetry in E.
    exists w'. split; [reflexivity|].
    exact (proj2 success_is_recorded_at_first_occurrence
             (ex_env ex_listing []) (upgrade_obj "6" "2" "1" ex_twice) _
             ex_world w' 1%nat 2%nat (Some ex_modules) E
             (le_n 2) eq_refl eq_refl).
Defined.

(** * Further properties of the program *)

(** ** The names of the log lines *)

Lemma getitem_ge {A : Type} (l : list A) (i : nat) :
  (List.length l <= i)%nat -> Py.getitem l (Z.of_nat i) = Raise index_out_of_range.
Proof.
  intros H. unfold Py.getitem.
  destruct (Z.ltb_spec (Z.of_nat i) 0) as [?|_]; [lia|].
  destruct (Z.ltb_spec (Z.of_nat i) 0) as [?|_]; [lia|].
  destruct (Z.leb_spec (Z.of_nat (List.length l)) (Z.of_nat i)) as [_|?]; [|lia].
  reflexivity.
Qed.

Lemma getitem_lookup {A : Type} (l : list A) (i : nat) :
  Py.getitem l (Z.of_nat i) =
  match l !! i with
  | Some x => Ok x
  | None => Raise index_out_of_range
  end.
Proof.
  destruct (l !! i) as [x|] eqn:E.
  - apply getitem_nat. exact E.
  - apply getitem_ge. apply lookup_ge_None. exact E.
Qed.

Lemma getitem_last_lookup {A : Type} (l : list A) :
  Py.getitem l (-1) =
  match last l with
  | Some x => Ok x
  | None => Raise index_out_of_range
  end.
Proof.
  destruct (last l) as [x|] eqn:E.
  - apply getitem_last. exact E.
  - apply last_None in E. subst l. reflexivity.
Qed.

Lemma shorten_name_loggable (f : string) :
  (loggable f = true -> exists short, Upgrade._shorten_name (Some f) = Ok short) /\
  (loggable f = false -> Upgrade._shorten_name (Some f) = Raise index_out_of_range) /\
  Upgrade._shorten_name None = Raise none_has_no_split.
Proof.
  unfold loggable, Upgrade._shorten_name. cbn [rbind].
  change 2 with (Z.of_nat 2). change 3 with (Z.of_nat 3).
  change 1 with (Z.of_nat 1). change 0 with (Z.of_nat 0).
  set (base := Py.split "-" f).
  split; [|split; [|reflexivity]].
  - destruct (base !! 2%nat) as [base2|] eqn:E2; [|discriminate].
    destruct (last base) as [tail|] eqn:El; [|discriminate].
    intros H. apply andb_true_iff in H as [H4 H2].
    apply Nat.leb_le in H2.
    destruct (lookup_lt_is_Some_2 (Py.split "_" tail) 1%nat ltac:(lia)) as [part Ep].
    destruct (lookup_lt_is_Some_2 base 1%nat
                ltac:(apply lookup_lt_Some in E2; lia)) as [base1 E1].
    destruct (split_cons "." part) as (a0 & rest & Ea).
    rewrite getitem_lookup, E2. cbn [rbind].
    destruct (Py.contains "unsigned" base2).
    + apply Nat.leb_le in H4.
      destruct (lookup_lt_is_Some_2 base 3%nat ltac:(lia)) as [base3 E3].
      repeat progress
        (cbv iota; cbn [rbind];
         rewrite ?getitem_lookup, ?getitem_last_lookup, ?E1, ?E2, ?E3, ?El, ?Ep, ?Ea).
      cbn. eauto.
    + repeat progress
        (cbv iota; cbn [rbind];
         rewrite ?getitem_lookup, ?getitem_last_lookup, ?E1, ?E2, ?El, ?Ep, ?Ea).
      cbn. eauto.
  - destruct (base !! 2%nat) as [base2|] eqn:E2;
      [|intros _; rewrite getitem_lookup, E2; reflexivity].
    destruct (lookup_lt_is_Some_2 base 1%nat
                ltac:(apply lookup_lt_Some in E2; lia)) as [base1 E1].
    destruct (last base) as [tail|] eqn:El;
      [|apply last_None in El; rewrite El in E2; discriminate].
    intros H. rewrite getitem_lookup, E2. cbn [rbind].
    destruct (Py.contains "unsigned" base2).
    + destruct (base !! 3%nat) as [base3|] eqn:E3.
      * assert (L4 : (4 <=? List.length base)%nat = true).
        { apply Nat.leb_le. apply lookup_lt_Some in E3. lia. }
        rewrite L4 in H. cbn [andb] in H. apply Nat.leb_gt in H.
        pose proof (lookup_ge_None_2 (Py.split "_" tail) 1%nat ltac:(lia)) as Ep.
        repeat progress
          (cbv iota; cbn [rbind];
           rewrite ?getitem_lookup, ?getitem_last_lookup, ?E1, ?E2, ?E3, ?El, ?Ep).
        reflexivity.
      * repeat progress
          (cbv iota; cbn [rbind];
           rewrite ?getitem_lookup, ?getitem_last_lookup, ?E1, ?E2, ?E3, ?El).
        reflexivity.
    + cbn [andb] in H. apply Nat.leb_gt in H.
      pose proof (lookup_ge_None_2 (Py.split "_" tail) 1%nat ltac:(lia)) as Ep.
      repeat progress
        (cbv iota; cbn [rbind];
         rewrite ?getitem_lookup, ?getitem_last_lookup, ?E1, ?E2, ?El, ?Ep).
      reflexivity.
Qed.

(** X1: [_shorten_name] returns on exactly the names with at least three
    parts between hyphens (four when the third part contains
    "unsigned") and an underscore after the last hyphen; on every other
    name it raises the exception of an index out of range, and on
    [None] the one of a missing attribute. *)
Theorem shorten_name_returns_iff_loggable (f : string) :
  (loggable f = true -> exists short, Upgrade._shorten_name (Some f) = Ok short) /\
  (loggable f = false -> Upgrade._shorten_name (Some f) = Raise index_out_of_range) /\
  Upgrade._shorten_name None = Raise none_has_no_split.
Proof. exact (shorten_name_loggable f). Qed.

(** The modules of the example can be named in a log line; a build log
    cannot. *)
Lemma shorten_name_returns_iff_loggable_witness :
  (exists short, Upgrade._shorten_name (Some ex_modules) = Ok short) /\
  Upgrade._shorten_name (Some "BUILD.LOG.amd64") = Raise index_out_of_range.
Proof.
  split.
  - exact (proj1 (shorten_name_returns_iff_loggable ex_modules) eq_refl).
  - exact (proj1 (proj2 (shorten_name_returns_iff_loggable "BUILD.LOG.amd64")) eq_refl).
Defined.

(** ** What the filter gives *)

Lemma kept_sublist (arch : string) (rest : list string) (prev : option string) :
  kept arch prev rest `sublist_of` rest.
Proof.
  revert prev. induction rest as [|link rest IH]; intros prev; simpl.
  - constructor.
  - destruct (passes arch prev link); simpl.
    + apply sublist_skip. apply IH.
    + apply sublist_cons. apply IH.
Qed.

(** X2: the loop of [fetch_deb_lst] never raises, although it reads
    [links[ittr-1]]; what it returns is the listing with some links
    taken out, in the order of the listing; and no link that it keeps
    carries the marker of low latency. *)
Theorem filter_returns_sublist_without_lowlatency (arch : string) (links : list string) :
  exists out : list string,
    Upgrade.fetch_loop arch links 0 links [] = Ok out /\
    out `sublist_of` links /\
    forall x, x ∈ out ->
      Py.contains "lowlatency" x = false /\
      ((Py.contains arch x = true /\ Py.contains "BUILD.LOG" x = false) \/
       Py.contains "all" x = true).
Proof.
  exists (kept arch (last links) links).
  split; [apply fetch_loop_total|].
  split; [apply kept_sublist|].
  intros x Hx. apply kept_elem in Hx as (_ & Hl & Hc). auto.
Qed.

(** X3: from the second link on, the condition that the loop computes is
    the rule of the specification, read on the link at the position
    before. *)
Theorem filter_follows_rule_after_first_link
    (arch : string) (links : list string) (i : nat) (link : string) :
  links !! S i = Some link ->
  Upgrade.keep arch links (S i) link = Ok (spec_passes arch links (S i)).
Proof. apply keep_spec_passes. Qed.

Lemma filter_follows_rule_after_first_link_witness :
  Upgrade.keep "amd64" ex_listing 1 ex_headers_all = Ok (spec_passes "amd64" ex_listing 1).
Proof.
  exact (filter_follows_rule_after_first_link "amd64" ex_listing 0 ex_headers_all eq_refl).
Defined.

(** ** What the resolver gives *)

Lemma log_slots_head_Some (o : option string) (out : list (option string)) :
  Upgrade.log_slots (o :: out) = Ok tt ->
  exists p short, o = Some p /\ Upgrade._shorten_name (Some p) = Ok short /\
                  Upgrade.log_slots out = Ok tt.
Proof.
  intros H. apply log_slots_cons_inv in H as [[short Hs] Hl].
  destruct o as [p|]; [eauto|discriminate].
Qed.

Lemma slot_elem (arch : string) (links : list string) (r : nat) (p : string) :
  last (of_role r (kept arch (last links) links)) = Some p ->
  role_of p = Some r /\ p ∈ links.
Proof.
  intros H. apply last_Some_elem_of in H. unfold of_role in H.
  apply list_elem_of_filter in H as [Hr Hin].
  apply kept_elem in Hin as (Hin & _). auto.
Qed.

Lemma resolve_Ok_plan
    (arch : string) (links : list string) (pk : list (option string)) :
  Upgrade.resolve arch links = Ok pk ->
  exists p0 p1 p2 p3 : string,
    pk = [Some p0; Some p1; Some p2; Some p3] /\
    role_of p0 = Some 0%nat /\ role_of p1 = Some 1%nat /\
    role_of p2 = Some 2%nat /\ role_of p3 = Some 3%nat /\
    p0 ∈ links /\ p1 ∈ links /\ p2 ∈ links /\ p3 ∈ links /\
    loggable p0 = true /\ loggable p1 = true /\
    loggable p2 = true /\ loggable p3 = true /\
    NoDup [p0; p1; p2; p3].
Proof.
  intros H. rewrite resolve_kept in H.
  apply deb_sort_Ok_inv in H as [E Hlog].
  rewrite deb_sort_slots_eq in E. subst pk.
  apply log_slots_head_Some in Hlog as (p0 & s0 & E0 & S0 & Hlog).
  apply log_slots_head_Some in Hlog as (p1 & s1 & E1 & S1 & Hlog).
  apply log_slots_head_Some in Hlog as (p2 & s2 & E2 & S2 & Hlog).
  apply log_slots_head_Some in Hlog as (p3 & s3 & E3 & S3 & _).
  exists p0, p1, p2, p3. rewrite E0, E1, E2, E3.
  destruct (slot_elem _ _ _ _ E0) as [R0 I0].
  destruct (slot_elem _ _ _ _ E1) as [R1 I1].
  destruct (slot_elem _ _ _ _ E2) as [R2 I2].
  destruct (slot_elem _ _ _ _ E3) as [R3 I3].
  assert (Hlg : forall p s, Upgrade._shorten_name (Some p) = Ok s -> loggable p = true).
  { intros p s Hs. destruct (loggable p) eqn:El; [reflexivity|].
    rewrite (proj1 (proj2 (shorten_name_loggable p)) El) in Hs. discriminate. }
  repeat (split; [first [reflexivity | assumption | eapply Hlg; eassumption]|]).
  repeat (apply NoDup_cons; split;
          [rewrite ?elem_of_cons, elem_of_nil; intuition congruence|]).
  apply NoDup_nil. exact I.
Qed.

(** X4: a plan that [fetch_deb_lst] returns is complete: it has four slots,
    each holds a link of the listing that has the role of the slot and
    that [_shorten_name] accepts, and the four names are different. *)
Theorem resolved_plan_is_complete
    (arch : string) (links : list string) (pk : list (option string)) :
  Upgrade.resolve arch links = Ok pk ->
  exists p0 p1 p2 p3 : string,
    pk = [Some p0; Some p1; Some p2; Some p3] /\
    role_of p0 = Some 0%nat /\ role_of p1 = Some 1%nat /\
    role_of p2 = Some 2%nat /\ role_of p3 = Some 3%nat /\
    p0 ∈ links /\ p1 ∈ links /\ p2 ∈ links /\ p3 ∈ links /\
    loggable p0 = true /\ loggable p1 = true /\
    loggable p2 = true /\ loggable p3 = true /\
    NoDup [p0; p1; p2; p3].
Proof. exact (resolve_Ok_plan arch links pk). Qed.

Lemma resolved_plan_is_complete_witness :
  exists p0 p1 p2 p3 : string,
    ex_plan = [Some p0; Some p1; Some p2; Some p3] /\
    role_of p0 = Some 0%nat /\ role_of p1 = Some 1%nat /\
    role_of p2 = Some 2%nat /\ role_of p3 = Some 3%nat /\
    p0 ∈ ex_listing /\ p1 ∈ ex_listing /\ p2 ∈ ex_listing /\ p3 ∈ ex_listing /\
    loggable p0 = true /\ loggable p1 = true /\
    loggable p2 = true /\ loggable p3 = true /\
    NoDup [p0; p1; p2; p3].
Proof.
  exact (resolved_plan_is_complete "amd64" ex_listing ex_plan eq_refl).
Defined.

(** ** The version and the two pages *)

(** X5: the version is the text of the marker without the white space
    around it, whenever that text has three parts between dots; the
    parts themselves are not checked. *)
Theorem version_is_stripped_marker (env : Env) (w : World) (soup : Soup) (text : string) :
  http_page env kernel_org = Ok soup ->
  td_latest_link soup = Some text ->
  List.length (Py.split "." (Py.strip text)) = 3%nat ->
  exists k : Kernel.obj,
    Kernel.__init__ env w = (logged w (EvPage kernel_org), Ok k) /\
    Kernel.ver_lst k = Py.split "." (Py.strip text) /\
    Kernel.get_latest_ver k = Py.strip text.
Proof.
  intros Hp Ht Hlen.
  pose proof (join_split "." (Py.strip text)) as Hj.
  destruct (Py.split "." (Py.strip text)) as [|a [|b [|c [|d l]]]] eqn:E;
    simpl in Hlen; try discriminate.
  eexists. split; [exact (kernel_init_run env w soup text a b c Hp Ht E)|].
  split; [reflexivity|exact Hj].
Qed.

Lemma version_is_stripped_marker_witness :
  exists k : Kernel.obj,
    Kernel.__init__ (ex_env_marker (Some "  6.2.1 ")) ex_world =
      (logged ex_world (EvPage kernel_org), Ok k) /\
    Kernel.ver_lst k = Py.split "." (Py.strip "  6.2.1 ") /\
    Kernel.get_latest_ver k = Py.strip "  6.2.1 ".
Proof.
  exact (version_is_stripped_marker (ex_env_marker (Some "  6.2.1 ")) ex_world
           {| td_latest_link := Some "  6.2.1 "; body := Some (Some ex_listing) |}
           "  6.2.1 " eq_refl eq_refl eq_refl).
Defined.

Lemma init_until_plan (env : Env) (w : World) (soup0 : Soup) (text a b c : string) :
  http_page env kernel_org = Ok soup0 ->
  td_latest_link soup0 = Some text ->
  Py.split "." (Py.strip text) = [a; b; c] ->
  forall e : PyExc,
    match http_page env (listing_url (Py.join "." [a; b; c])) with
    | Raise e' => e' = e
    | Ok soup =>
        match body soup with
        | None => none_has_no_find = e
        | Some None => none_has_no_find_all = e
        | Some (Some _) => False
        end
    end ->
    Upgrade.__init__ env w =
      (logged (logged w (EvPage kernel_org))
         (EvPage (listing_url (Py.join "." [a; b; c]))), Raise e).
Proof.
  intros Hp0 Ht Hs e He. unfold Upgrade.__init__.
  rewrite (bind_Ok _ _ _ _ _ (kernel_init_run env w soup0 text a b c Hp0 Ht Hs)).
  apply bind_Raise.
  unfold Upgrade.fetch_deb_lst, Kernel.get_latest_ver.
  cbn [Kernel.ver_str Upgrade.URL Upgrade.kernel_version].
  fold (listing_url (Py.join "." [a; b; c])).
  unfold bind. rewrite soupify_run.
  destruct (http_page env (listing_url (Py.join "." [a; b; c]))) as [soup|e'];
    [|congruence].
  destruct (body soup) as [[links|]|]; [contradiction| |]; subst e; reflexivity.
Qed.

(** X6: a page that cannot be retrieved, a listing page without a body,
    or one whose body has no [code] element, ends the run before any
    artifact is downloaded or installed: with the exception of the
    request, or with the [AttributeError] of calling [find], or
    [find_all], on [None]. *)
Theorem page_failure_aborts_before_any_call
    (env : Env) (w : World) (e : PyExc) :
  (http_page env kernel_org = Raise e ->
   Upgrade.__init__ env w = (logged w (EvPage kernel_org), Raise e)) /\
  (forall (soup0 : Soup) (text a b c : string),
     http_page env kernel_org = Ok soup0 ->
     td_latest_link soup0 = Some text ->
     Py.split "." (Py.strip text) = [a; b; c] ->
     (http_page env (listing_url (Py.join "." [a; b; c])) = Raise e ->
      Upgrade.__init__ env w =
        (logged (logged w (EvPage kernel_org))
           (EvPage (listing_url (Py.join "." [a; b; c]))), Raise e)) /\
     (forall soup1 : Soup,
        http_page env (listing_url (Py.join "." [a; b; c])) = Ok soup1 ->
        (body soup1 = None ->
         Upgrade.__init__ env w =
           (logged (logged w (EvPage kernel_org))
              (EvPage (listing_url (Py.join "." [a; b; c]))),
            Raise none_has_no_find)) /\
        (body soup1 = Some None ->
         Upgrade.__init__ env w =
           (logged (logged w (EvPage kernel_org))
              (EvPage (listing_url (Py.join "." [a; b; c]))),
            Raise none_has_no_find_all)))).
Proof.
  split.
  - intros Hp. unfold Upgrade.__init__. apply bind_Raise.
    unfold Kernel.__init__, Kernel._update. apply bind_Raise.
    unfold Kernel._fetch_latest. apply bind_Raise.
    rewrite soupify_run. fold kernel_org. rewrite Hp. reflexivity.
  - intros soup0 text a b c Hp0 Ht Hs. split.
    + intros Hp1. apply (init_until_plan env w soup0 text a b c Hp0 Ht Hs).
      rewrite Hp1. reflexivity.
    + intros soup1 Hp1. split; intros Hb;
        apply (init_until_plan env w soup0 text a b c Hp0 Ht Hs);
        rewrite Hp1, Hb; reflexivity.
Qed.

(** Without network the index page ends the run; on a listing page
    that has no body the run ends at [find]. *)
Lemma page_failure_aborts_before_any_call_witness :
  Upgrade.__init__ ex_env_offline ex_world =
    (logged ex_world (EvPage kernel_org), Raise (ConnectionError "Max retries exceeded")) /\
  Upgrade.__init__ (ex_env_page None) ex_world =
    (logged (logged ex_world (EvPage kernel_org))
       (EvPage (listing_url (Py.join "." ["6"; "2"; "1"]))), Raise none_has_no_find).
Proof.
  split.
  - exact (proj1 (page_failure_aborts_before_any_call
                    ex_env_offline ex_world (ConnectionError "Max retries exceeded")) eq_refl).
  - exact (proj1 (proj2 (proj2 (page_failure_aborts_before_any_call
                                  (ex_env_page None) ex_world none_has_no_find)
                           {| td_latest_link := Some "6.2.1"; body := None |}
                           "6.2.1" "6" "2" "1" eq_refl eq_refl eq_refl)
                    {| td_latest_link := Some "6.2.1"; body := None |} eq_refl) eq_refl).
Defined.

(** ** Failures of a download or of a launch *)

Lemma get_deb_download_fails (env : Env) (self : Upgrade.obj) (name short : string)
    (e : PyExc) (w : World) :
  Upgrade._shorten_name (Some name) = Ok short ->
  http_content env (w_gets w) (artifact_url self name) = Raise e ->
  Upgrade.get_deb env self (Some name) w =
  ({| w_files := delete (fs_path env ("./" +:+ name)) (w_files w);
      w_open := w_open w; w_gets := S (w_gets w); w_popens := w_popens w;
      w_opens := w_opens w;
      w_trace := (w_trace w ++ removal env w name) ++ [EvGet (artifact_url self name)] |},
   Raise e).
Proof.
  intros Hs Hc. unfold Upgrade.get_deb.
  unfold bind at 1. unfold lift. rewrite Hs.
  unfold bind. rewrite (get_pkg_data_run env self name short w Hs), Hc. reflexivity.
Qed.



Lemma install_deb_launch_fails (env : Env) (self : Upgrade.obj) (name short : string)
    (e : PyExc) (w : World) :
  Upgrade._shorten_name (Some name) = Ok short ->
  spawn env (w_popens w) (dpkg_argv name) = Raise e ->
  Upgrade.install_deb env self (Some name) w =
  ({| w_files := w_files w; w_open := w_open w; w_gets := w_gets w;
      w_popens := S (w_popens w); w_opens := w_opens w;
      w_trace := w_trace w ++ [EvPopen (dpkg_argv name)] |}, Raise e).
Proof.
  intros Hs Hl.
  unfold Upgrade.install_deb, Upgrade._install_deb, Popen, bind, lift. cbn [Py.fmt].
  fold (dpkg_argv name). rewrite Hs, Hl. reflexivity.
Qed.



Lemma install_deb_without_password
    (env : Env) (self : Upgrade.obj) (name short : string)
    (proc : string -> Z) (w : World) :
  Upgrade._shorten_name (Some name) = Ok short ->
  SUDO_PASS env = None ->
  spawn env (w_popens w) (dpkg_argv name) = Ok proc ->
  exists w' : World,
    Upgrade.install_deb env self (Some name) w = (w', Raise none_plus_str) /\
    w_trace w' = w_trace w ++ [EvPopen (dpkg_argv name)] /\
    w_popens w' = S (w_popens w).
Proof.
  intros Hs Hp Hl. eexists. split.
  - unfold Upgrade.install_deb, Upgrade._install_deb, Popen, bind, lift, raise.
    cbn [Py.fmt]. fold (dpkg_argv name). rewrite Hs, Hl, Hp. reflexivity.
  - split; reflexivity.
Qed.

(** X9: when the password was not loaded, the installer is launched all the
    same; then the run ends with a [TypeError], nothing has been written
    to the standard input of the process, and no return code is
    recorded. *)
Theorem missing_password_fails_after_launch
    (env : Env) (self : Upgrade.obj) (name short : string)
    (proc : string -> Z) (w : World) :
  Upgrade._shorten_name (Some name) = Ok short ->
  SUDO_PASS env = None ->
  spawn env (w_popens w) (dpkg_argv name) = Ok proc ->
  exists w' : World,
    Upgrade.install_deb env self (Some name) w = (w', Raise none_plus_str) /\
    w_trace w' = w_trace w ++ [EvPopen (dpkg_argv name)] /\
    w_popens w' = S (w_popens w).
Proof. exact (install_deb_without_password env self name short proc w). Qed.

Lemma missing_password_fails_after_launch_witness :
  exists w' : World,
    Upgrade.install_deb
      ex_env_no_password
      (upgrade_obj "6" "2" "1" ex_plan) (Some ex_modules) ex_world =
      (w', Raise none_plus_str) /\
    w_trace w' = w_trace ex_world ++ [EvPopen (dpkg_argv ex_modules)] /\
    w_popens w' = S (w_popens ex_world).
Proof.
  exact (missing_password_fails_after_launch ex_env_no_password (upgrade_obj "6" "2" "1" ex_plan)
           ex_modules "Linux-Modules-v6.2.1 ()" (fun _ => 0) ex_world
           eq_refl eq_refl eq_refl).
Defined.

(** ** The command line of the installer *)

Lemma append_empty_r (s : string) : s +:+ EmptyString = s.
Proof.
  induction s as [|c s IH]; [reflexivity|].
  change (String c (s +:+ EmptyString) = String c s). rewrite IH. reflexivity.
Qed.

Lemma append_snoc (s t : string) (c : ascii) :
  (s +:+ String c EmptyString) +:+ t = s +:+ String c t.
Proof.
  induction s as [|d s IH]; [reflexivity|].
  change (String d ((s +:+ String c EmptyString) +:+ t) = String d (s +:+ String c t)).
  rewrite IH. reflexivity.
Qed.

Lemma split_ws_from_no_space (s cur : string) :
  has_space s = false ->
  Py.split_ws_from cur s =
  match cur +:+ s with
  | EmptyString => []
  | word => [word]
  end.
Proof.
  revert cur. induction s as [|c s IH]; intros cur H; simpl.
  - rewrite append_empty_r. destruct cur; reflexivity.
  - simpl in H. apply orb_false_iff in H as [Hc Hs].
    rewrite Hc, (IH _ Hs), append_snoc. reflexivity.
Qed.

Lemma split_ws_from_blank (s t cur : string) (c : ascii) :
  has_space s = false -> Py.isspace c = true ->
  Py.split_ws_from cur (s +:+ String c t) =
  match cur +:+ s with
  | EmptyString => Py.split_ws_from EmptyString t
  | word => word :: Py.split_ws_from EmptyString t
  end.
Proof.
  revert cur. induction s as [|d s IH]; intros cur H Hc.
  - change (EmptyString +:+ String c t) with (String c t).
    cbn [Py.split_ws_from]. rewrite Hc, append_empty_r. destruct cur; reflexivity.
  - change (String d s +:+ String c t) with (String d (s +:+ String c t)).
    cbn [Py.split_ws_from]. simpl in H. apply orb_false_iff in H as [Hd Hs].
    rewrite Hd, (IH _ Hs Hc), append_snoc. reflexivity.
Qed.

Lemma split_ws_dpkg (name : string) :
  Py.split_ws ("dpkg -i ./" +:+ name) =
  "dpkg" :: "-i" :: Py.split_ws_from "./" name.
Proof. reflexivity. Qed.

Lemma install_raw_run (env : Env) (name short pass : string)
    (proc : string -> Z) (w : World) :
  Upgrade._shorten_name (Some name) = Ok short ->
  SUDO_PASS env = Some pass ->
  spawn env (w_popens w) (dpkg_argv name) = Ok proc ->
  Upgrade._install_deb env (Some name) w =
  (after_install_deb w name pass, Ok (proc (pass +:+ newline))).
Proof.
  intros Hs Hp Hl.
  unfold Upgrade._install_deb, Popen, communicate_poll, emit, bind, lift, ret.
  cbn [Py.fmt]. fold (dpkg_argv name). rewrite Hl, Hp, Hs.
  cbn [w_files w_open w_gets w_popens w_trace].
  unfold after_install_deb. fold newline. rewrite <- !app_assoc. reflexivity.
Qed.

(** X10: for a file name without white space the installer is launched as
    [sudo -S dpkg -i ./name], the password and a line feed are written
    once to its standard input, and [_install_deb] returns its exit
    status.  A name with a blank in it reaches [dpkg] as two
    arguments. *)
Theorem installer_command_line :
  (forall (env : Env) (name short pass : string) (proc : string -> Z) (w : World),
     has_space name = false ->
     Upgrade._shorten_name (Some name) = Ok short ->
     SUDO_PASS env = Some pass ->
     spawn env (w_popens w) ["sudo"; "-S"; "dpkg"; "-i"; "./" +:+ name] = Ok proc ->
     exists w' : World,
       Upgrade._install_deb env (Some name) w = (w', Ok (proc (pass +:+ newline))) /\
       w_trace w' = w_trace w ++
         [EvPopen ["sudo"; "-S"; "dpkg"; "-i"; "./" +:+ name];
          EvStdin (pass +:+ newline)]) /\
  (forall (env : Env) (a b short pass : string) (c : ascii)
          (proc : string -> Z) (w : World),
     has_space a = false -> has_space b = false -> b <> EmptyString ->
     Py.isspace c = true ->
     Upgrade._shorten_name (Some (a +:+ String c b)) = Ok short ->
     SUDO_PASS env = Some pass ->
     spawn env (w_popens w) ["sudo"; "-S"; "dpkg"; "-i"; "./" +:+ a; b] = Ok proc ->
     exists w' : World,
       Upgrade._install_deb env (Some (a +:+ String c b)) w =
         (w', Ok (proc (pass +:+ newline))) /\
       w_trace w' = w_trace w ++
         [EvPopen ["sudo"; "-S"; "dpkg"; "-i"; "./" +:+ a; b];
          EvStdin (pass +:+ newline)]).
Proof.
  split.
  - intros env name short pass proc w Hn Hs Hp Hl.
    assert (E : dpkg_argv name = ["sudo"; "-S"; "dpkg"; "-i"; "./" +:+ name]).
    { unfold dpkg_argv. rewrite split_ws_dpkg.
      rewrite (split_ws_from_no_space name "./" Hn). reflexivity. }
    rewrite <- E in Hl |- *. eexists.
    split; [exact (install_raw_run env name short pass proc w Hs Hp Hl)|reflexivity].
  - intros env a b short pass c proc w Ha Hb Hne Hc Hs Hp Hl.
    assert (E : dpkg_argv (a +:+ String c b) = ["sudo"; "-S"; "dpkg"; "-i"; "./" +:+ a; b]).
    { unfold dpkg_argv. rewrite split_ws_dpkg.
      rewrite (split_ws_from_blank a b "./" c Ha Hc).
      rewrite (split_ws_from_no_space b EmptyString Hb).
      destruct b; [congruence|reflexivity]. }
    rewrite <- E in Hl |- *. eexists.
    split; [exact (install_raw_run env _ short pass proc w Hs Hp Hl)|reflexivity].
Qed.

Lemma installer_command_line_witness :
  exists w' : World,
    Upgrade._install_deb (ex_env ex_listing []) (Some ex_modules) ex_world =
      (w', Ok (nth 0 [] 0)) /\
    w_trace w' = w_trace ex_world ++
      [EvPopen ["sudo"; "-S"; "dpkg"; "-i"; "./" +:+ ex_modules];
       EvStdin ("secret" +:+ newline)].
Proof.
  exact (proj1 installer_command_line (ex_env ex_listing []) ex_modules
           "Linux-Modules-v6.2.1 ()" "secret" (fun _ => nth 0 [] 0) ex_world
           eq_refl eq_refl eq_refl eq_refl).
Defined.

(** ** Fetching twice *)



(** ** What a run leaves behind, on every path *)

Lemma untouched_refl (names : list string) (w : World) : untouched names w w.
Proof. split; [reflexivity|auto]. Qed.

Lemma untouched_trans (names : list string) (w1 w2 w3 : World) :
  untouched names w1 w2 -> untouched names w2 w3 -> untouched names w1 w3.
Proof.
  intros [O1 F1] [O2 F2]. split; [congruence|].
  intros k Hk. rewrite F2, F1 by exact Hk. reflexivity.
Qed.

Lemma keeps_mono {A : Type} (names names' : list string) (m : M A) :
  (forall k, k ∈ names -> k ∈ names') -> keeps names m -> keeps names' m.
Proof.
  intros Hsub H w. destruct (H w) as [O F]. split; [exact O|].
  intros k Hk. apply F. intros Hin. apply Hk, Hsub, Hin.
Qed.

Lemma keeps_ret {A : Type} (names : list string) (a : A) : keeps names (ret a).
Proof. intros w. apply untouched_refl. Qed.

Lemma keeps_raise {A : Type} (names : list string) (e : PyExc) :
  keeps names (@raise A e).
Proof. intros w. apply untouched_refl. Qed.

Lemma keeps_lift {A : Type} (names : list string) (r : result A) :
  keeps names (lift r).
Proof. intros w. apply untouched_refl. Qed.

(** Sequencing, where the second computation may rely on what the first
    one is known to return. *)
Lemma keeps_bind {A B : Type} (names : list string) (P : A -> Prop)
    (m : M A) (k : A -> M B) :
  keeps names m ->
  (forall w w' a, m w = (w', Ok a) -> P a) ->
  (forall a, P a -> keeps names (k a)) ->
  keeps names (bind m k).
Proof.
  intros Hm HP Hk w. unfold bind.
  pose proof (Hm w) as H1. destruct (m w) as [w1 [a|e]] eqn:E; simpl in H1.
  - eapply untouched_trans; [exact H1|]. apply Hk. eapply HP. exact E.
  - exact H1.
Qed.

Lemma keeps_seq {A B : Type} (names : list string) (m : M A) (k : A -> M B) :
  keeps names m -> (forall a, keeps names (k a)) -> keeps names (bind m k).
Proof.
  intros Hm Hk. apply (keeps_bind names (fun _ => True)); auto.
Qed.

Lemma keeps_emit (names : list string) (e : Event) : keeps names (emit e).
Proof. intros w. split; [reflexivity|auto]. Qed.

Lemma keeps_soupify (env : Env) (names : list string) (url : string) :
  keeps names (soupify env url).
Proof.
  unfold soupify. apply keeps_seq; [apply keeps_emit|]. intros _. apply keeps_lift.
Qed.

Lemma keeps_requests_get (env : Env) (names : list string) (url : string) :
  keeps names (requests_get_content env url).
Proof. intros w. split; [reflexivity|auto]. Qed.

Lemma keeps_Popen (env : Env) (names : list string) (argv : list string) :
  keeps names (Popen env argv).
Proof. intros w. split; [reflexivity|auto]. Qed.

Lemma keeps_communicate (names : list string) (p : string -> Z) (data : string) :
  keeps names (communicate_poll p data).
Proof.
  unfold communicate_poll. apply keeps_seq; [apply keeps_emit|].
  intros _. apply keeps_ret.
Qed.

Lemma keeps_path_exists (env : Env) (names : list string) (path : string) :
  keeps names (Os.path_exists env path).
Proof. intros w. apply untouched_refl. Qed.

Lemma keeps_remove (env : Env) (path : string) :
  keeps [fs_path env path] (Os.remove env path).
Proof.
  intros w. unfold Os.remove.
  destruct (w_files w !! fs_path env path); [|apply untouched_refl].
  split; [reflexivity|]. intros k Hk. cbn [fst w_files].
  apply lookup_delete_ne. intros <-. apply Hk. apply list_elem_of_singleton. reflexivity.
Qed.

Lemma keeps_write_pkg_data (env : Env) (fetch_resp : option string * list Byte.byte) :
  keeps [fs_path env (Py.fmt (fst fetch_resp))] (Upgrade._write_pkg_data env fetch_resp).
Proof.
  destruct fetch_resp as [[name|] resp]; intros w.
  - destruct (fs_open env (w_opens w) name) as [e|] eqn:Ho.
    + rewrite (write_pkg_data_fails env name resp e w Ho).
      split; [reflexivity|]. intros k Hk. reflexivity.
    + rewrite (write_pkg_data_run env name resp w Ho). split; [reflexivity|].
      intros k Hk. cbn [fst w_files Py.fmt] in *.
      apply lookup_insert_ne. intros <-. apply Hk.
      apply list_elem_of_singleton. reflexivity.
  - apply untouched_refl.
Qed.

Lemma keeps_file_exists (env : Env) (names : list string) (filename : option string) :
  keeps names (Upgrade._file_exists env filename).
Proof.
  unfold Upgrade._file_exists. apply keeps_seq; [apply keeps_path_exists|].
  intros [|]; [|apply keeps_ret].
  apply keeps_seq; [apply keeps_lift|]. intros _. apply keeps_ret.
Qed.

Lemma keeps_delete_file (env : Env) (filename : option string) :
  keeps [fs_path env ("./" +:+ Py.fmt filename)] (Upgrade._delete_file env filename).
Proof.
  unfold Upgrade._delete_file.
  apply keeps_seq; [exact (keeps_remove env ("./" +:+ Py.fmt filename))|].
  intros _. apply keeps_seq; [apply keeps_lift|]. intros _. apply keeps_ret.
Qed.

Lemma get_pkg_data_returns_name (env : Env) (self : Upgrade.obj)
    (filename : option string) (w w' : World) (a : option string * list Byte.byte) :
  Upgrade._get_pkg_data env self filename w = (w', Ok a) -> fst a = filename.
Proof.
  unfold Upgrade._get_pkg_data. intros H.
  apply bind_Ok_inv in H as (w1 & b & _ & H).
  apply bind_Ok_inv in H as (w2 & _ & _ & H).
  apply bind_Ok_inv in H as (w3 & content & _ & H).
  unfold ret in H. injection H as _ <-. reflexivity.
Qed.

Lemma keeps_get_deb (env : Env) (self : Upgrade.obj) (deb : option string) :
  keeps (slot_files env deb) (Upgrade.get_deb env self deb).
Proof.
  unfold Upgrade.get_deb, slot_files. apply keeps_seq; [apply keeps_lift|]. intros _.
  apply (keeps_bind _ (fun a => fst a = deb)).
  - apply (keeps_mono [fs_path env ("./" +:+ Py.fmt deb)]).
    { intros k Hk. apply list_elem_of_singleton in Hk as ->. apply elem_of_cons. auto. }
    unfold Upgrade._get_pkg_data.
    apply keeps_seq; [apply keeps_file_exists|]. intros b.
    apply keeps_seq; [destruct b; [apply keeps_delete_file|apply keeps_ret]|].
    intros _. apply keeps_seq; [apply keeps_requests_get|]. intros c. apply keeps_ret.
  - intros w w' a. apply get_pkg_data_returns_name.
  - intros a <-. apply (keeps_mono [fs_path env (Py.fmt (fst a))]);
      [|apply keeps_write_pkg_data].
    intros k Hk. apply list_elem_of_singleton in Hk as ->.
    apply elem_of_cons. right. apply elem_of_cons. auto.
Qed.

Lemma keeps_install_deb (env : Env) (names : list string) (self : Upgrade.obj)
    (deb : option string) :
  keeps names (Upgrade.install_deb env self deb).
Proof.
  unfold Upgrade.install_deb. apply keeps_seq; [apply keeps_lift|]. intros _.
  apply keeps_seq; [|intros rc; apply keeps_lift].
  unfold Upgrade._install_deb.
  apply keeps_seq; [apply keeps_Popen|]. intros p.
  apply keeps_seq; [destruct (SUDO_PASS env); [apply keeps_ret|apply keeps_raise]|].
  intros data. apply keeps_seq; [apply keeps_communicate|]. intros rc.
  apply keeps_seq; [apply keeps_lift|]. intros _. apply keeps_ret.
Qed.

Lemma keeps_install_loop (env : Env) (debs : list (option string)) (self : Upgrade.obj) :
  keeps (concat (map (slot_files env) debs)) (Upgrade.install_loop env self debs).
Proof.
  revert self. induction debs as [|deb debs IH]; intros self.
  - apply keeps_ret.
  - cbn [Upgrade.install_loop map concat].
    apply keeps_seq.
    + apply (keeps_mono (slot_files env deb)); [|apply keeps_get_deb].
      intros k Hk. apply elem_of_app. auto.
    + intros _. apply keeps_seq; [apply keeps_install_deb|].
      intros self'. apply (keeps_mono (concat (map (slot_files env) debs))); [|apply IH].
      intros k Hk. apply elem_of_app. auto.
Qed.

(** X12: however the loop of [install_all_debs] ends, by its last turn
    or by an exception in any turn, its calls of [os.remove], [open]
    and [write] leave no file handle open, and create, remove or change
    no file but those that the packages name: for each package the
    file [./name], which is looked for and removed, and the file
    [name], which is written.  What the handlers of the [logging]
    module write is not part of the statement. *)
Theorem run_leaves_no_handle_and_no_stray_file
    (env : Env) (self : Upgrade.obj) (w : World) :
  w_open (fst (Upgrade.install_all_debs env self w)) = w_open w /\
  forall k : string,
    k ∉ concat (map (slot_files env) (Upgrade.packages self)) ->
    w_files (fst (Upgrade.install_all_debs env self w)) !! k = w_files w !! k.
Proof. exact (keeps_install_loop env (Upgrade.packages self) self w). Qed.

Lemma keeps_kernel_init (env : Env) (names : list string) :
  keeps names (Kernel.__init__ env).
Proof.
  unfold Kernel.__init__, Kernel._update.
  apply keeps_seq.
  - unfold Kernel._fetch_latest. apply keeps_seq; [apply keeps_soupify|].
    intros soup. destruct (td_latest_link soup); [apply keeps_ret|apply keeps_raise].
  - intros [|a [|b [|c [|d l]]]]; first [apply keeps_ret | apply keeps_raise].
Qed.

Lemma keeps_fetch_deb_lst (env : Env) (names : list string) (self : Upgrade.obj)
    (arch : string) :
  keeps names (Upgrade.fetch_deb_lst env self arch).
Proof.
  unfold Upgrade.fetch_deb_lst. apply keeps_seq; [apply keeps_soupify|].
  intros soup. destruct (body soup) as [[links|]|];
    [apply keeps_lift|apply keeps_raise|apply keeps_raise].
Qed.

Lemma fetch_deb_lst_Ok_inv (env : Env) (self : Upgrade.obj) (arch : string)
    (w w' : World) (pk : list (option string)) :
  Upgrade.fetch_deb_lst env self arch w = (w', Ok pk) ->
  exists (url : string) (soup : Soup) (links : list string),
    http_page env url = Ok soup /\ body_code_links soup = Some links /\
    Upgrade.resolve arch links = Ok pk.
Proof.
  unfold Upgrade.fetch_deb_lst. intros H.
  apply bind_Ok_inv in H as (w1 & soup & Hs & H).
  rewrite soupify_run in Hs. injection Hs as _ Hs.
  unfold body_code_links.
  destruct (body soup) as [[links|]|] eqn:El; [|discriminate|discriminate].
  unfold lift in H. injection H as _ H.
  exists (Upgrade.URL self +:+ "/v" +:+ Upgrade.kernel_version self +:+ "/"), soup, links.
  rewrite El. auto.
Qed.

(** X13: however the program ends, its calls of [os.remove], [open] and
    [write] leave no file handle open, and a file that neither [./link]
    nor [link] names, for any link of a page that the program can read,
    is left as it was.  What the handlers of the [logging] module write
    is not part of the statement. *)
Theorem main_touches_only_listed_files (env : Env) (w : World) (k : string) :
  (forall (url : string) (soup : Soup) (links : list string) (link : string),
     http_page env url = Ok soup -> body_code_links soup = Some links ->
     link ∈ links ->
     k <> fs_path env ("./" +:+ link) /\ k <> fs_path env link) ->
  w_open (fst (main env w)) = w_open w /\
  w_files (fst (main env w)) !! k = w_files w !! k.
Proof.
  intros Hk.
  assert (Hmain : fst (main env w) = fst (Upgrade.__init__ env w)).
  { unfold main, bind, ret. destruct (Upgrade.__init__ env w) as [w' [u|e]]; reflexivity. }
  rewrite Hmain. unfold Upgrade.__init__.
  pose proof (keeps_kernel_init env [] w) as [O1 F1].
  destruct (Kernel.__init__ env w) as [w1 [kern|e]] eqn:Ek; cbn [fst] in O1, F1;
    [|rewrite (bind_Raise _ _ _ _ _ Ek); cbn [fst];
      split; [exact O1|apply F1; apply not_elem_of_nil]].
  rewrite (bind_Ok _ _ _ _ _ Ek). cbv beta.
  match goal with |- context [Upgrade.fetch_deb_lst env ?s "amd64"] =>
    pose proof (keeps_fetch_deb_lst env [] s "amd64" w1) as [O2 F2];
    destruct (Upgrade.fetch_deb_lst env s "amd64" w1) as [w2 [pk|e]] eqn:Ef
  end; cbn [fst] in O2, F2;
    [|rewrite (bind_Raise _ _ _ _ _ Ef); cbn [fst];
      split; [congruence|rewrite F2, F1 by apply not_elem_of_nil; reflexivity]].
  rewrite (bind_Ok _ _ _ _ _ Ef). cbv beta.
  apply fetch_deb_lst_Ok_inv in Ef as (url & soup & links & Hp & Hl & Hres).
  destruct (resolve_Ok_plan "amd64" links pk Hres)
    as (p0 & p1 & p2 & p3 & -> & _ & _ & _ & _ & I0 & I1 & I2 & I3 & _).
  unfold Upgrade.install_all_debs.
  match goal with |- context [Upgrade.install_loop env ?s ?d w2] =>
    pose proof (keeps_install_loop env d s w2) as [O3 F3]
  end.
  split; [congruence|].
  rewrite F3; [rewrite F2, F1 by apply not_elem_of_nil; reflexivity|].
  cbn [Upgrade.set_packages Upgrade.packages map concat slot_files Py.fmt app].
  rewrite !elem_of_cons, elem_of_nil.
  destruct (Hk url soup links p0 Hp Hl I0) as [A0 B0].
  destruct (Hk url soup links p1 Hp Hl I1) as [A1 B1].
  destruct (Hk url soup links p2 Hp Hl I2) as [A2 B2].
  destruct (Hk url soup links p3 Hp Hl I3) as [A3 B3].
  intuition congruence.
Qed.

(** The run of the example leaves a file of another name as it was. *)
Lemma main_touches_only_listed_files_witness :
  w_open (fst (main (ex_env ex_listing []) ex_stale_world)) = w_open ex_stale_world /\
  w_files (fst (main (ex_env ex_listing []) ex_stale_world)) !! "notes.txt" =
  w_files ex_stale_world !! "notes.txt".
Proof.
  apply (main_touches_only_listed_files (ex_env ex_listing []) ex_stale_world "notes.txt").
  intros url soup links link Hp Hl Hin.
  assert (Hlinks : links = ex_listing).
  { simpl in Hp. destruct (String.eqb url "https://kernel.org/");
      injection Hp as <-; unfold body_code_links in Hl; cbn in Hl; congruence. }
  subst links. unfold ex_listing in Hin.
  repeat (apply elem_of_cons in Hin as [->|Hin]; [split; discriminate|]).
  apply elem_of_nil in Hin. contradiction.
Defined.

(** ** The outcomes during a run *)

Lemma rc_check_monotone (self self' : Upgrade.obj) (rc : Z) (deb : option string) :
  Upgrade._rc_check self rc deb = Ok self' ->
  Upgrade.packages self' = Upgrade.packages self /\
  List.length (Upgrade.return_codes self') = List.length (Upgrade.return_codes self) /\
  forall j, Upgrade.return_codes self !! j = Some true ->
            Upgrade.return_codes self' !! j = Some true.
Proof.
  intros H. apply rc_check_Ok_inv in H as [->|(i & Hi & ->)]; [auto|].
  cbn [Upgrade.set_return_codes Upgrade.return_codes Upgrade.packages].
  split; [reflexivity|]. split; [apply length_insert|].
  intros j Hj. destruct (decide (i = j)) as [->|Hne].
  - apply list_lookup_insert_eq. apply lookup_lt_Some in Hj. exact Hj.
  - rewrite list_lookup_insert_ne by exact Hne. exact Hj.
Qed.

Lemma install_loop_monotone (env : Env) (debs : list (option string))
    (self self' : Upgrade.obj) (w w' : World) :
  Upgrade.install_loop env self debs w = (w', Ok self') ->
  Upgrade.packages self' = Upgrade.packages self /\
  List.length (Upgrade.return_codes self') = List.length (Upgrade.return_codes self) /\
  forall j, Upgrade.return_codes self !! j = Some true ->
            Upgrade.return_codes self' !! j = Some true.
Proof.
  revert self w. induction debs as [|deb debs IH]; intros self w H.
  - cbn in H. unfold ret in H. injection H as _ <-. auto.
  - cbn [Upgrade.install_loop] in H.
    apply bind_Ok_inv in H as (w1 & _ & _ & H).
    apply bind_Ok_inv in H as (w2 & self1 & H1 & H).
    apply install_deb_Ok_inv in H1 as (rc & H1).
    apply rc_check_monotone in H1 as (P1 & L1 & M1).
    apply IH in H as (P2 & L2 & M2).
    split; [congruence|]. split; [congruence|]. auto.
Qed.

(** X14: in a run of [install_all_debs] that returns, the packages stay what
    they were, there are as many outcomes after as before, and an
    outcome that is a success stays one: a later return code, zero or
    not, never turns it back into a failure. *)
Theorem outcomes_only_turn_to_success
    (env : Env) (self self' : Upgrade.obj) (w w' : World) :
  Upgrade.install_all_debs env self w = (w', Ok self') ->
  Upgrade.packages self' = Upgrade.packages self /\
  List.length (Upgrade.return_codes self') = List.length (Upgrade.return_codes self) /\
  forall j, Upgrade.return_codes self !! j = Some true ->
            Upgrade.return_codes self' !! j = Some true.
Proof. apply install_loop_monotone. Qed.

(** A run on the plan of the example in which every installer exits
    with status 1, started with the first outcome already a success. *)
Lemma outcomes_only_turn_to_success_witness :
  exists (w' : World),
    Upgrade.install_all_debs (ex_env ex_listing [1; 1; 1; 1])
      (Upgrade.set_return_codes (upgrade_obj "6" "2" "1" ex_plan) [true; false; false; false])
      ex_world =
    (w', Ok (Upgrade.set_return_codes (upgrade_obj "6" "2" "1" ex_plan)
               [true; false; false; false])) /\
    ([true; false; false; false] !! 0%nat = Some true ->
     [true; false; false; false] !! 0%nat = Some true).
Proof.
  remember (Upgrade.install_all_debs (ex_env ex_listing [1; 1; 1; 1])
              (Upgrade.set_return_codes (upgrade_obj "6" "2" "1" ex_plan)
                 [true; false; false; false]) ex_world) as run eqn:E.
  assert (H : snd run =
              Ok (Upgrade.set_return_codes (upgrade_obj "6" "2" "1" ex_plan)
                    [true; false; false; false])).
  { subst run. vm_compute. reflexivity. }
  destruct run as [w' r]. simpl in H. subst r. symmetry in E.
  exists w'. split; [reflexivity|].
  exact (proj2 (proj2 (outcomes_only_turn_to_success _ _ _ _ _ E)) 0%nat).
Defined.

(** ** What a message of success means *)

Lemma rc_check_new_success (self self' : Upgrade.obj) (rc : Z)
    (deb : option string) (j : nat) :
  Upgrade._rc_check self rc deb = Ok self' ->
  Upgrade.return_codes self' !! j = Some true ->
  Upgrade.return_codes self !! j = Some true \/
  (rc = 0 /\ exists name, deb = Some name /\
                          Upgrade.packages self !! j = Some (Some name)).
Proof.
  intros H Hj. unfold Upgrade._rc_check in H.
  destruct (Z.eqb_spec rc 0) as [->|Hne]; [|injection H as <-; auto].
  destruct deb as [name|]; [|discriminate].
  destruct (Upgrade._shorten_name (Some name)) as [short|e]; [|discriminate].
  cbn [rbind] in H.
  destruct (Py.index (Upgrade.packages self) (Some name)) as [i|e] eqn:Ei; [|discriminate].
  cbn [rbind] in H. unfold Py.setitem in H.
  destruct (i <? List.length (Upgrade.return_codes self))%nat; [|discriminate].
  cbn [rbind Upgrade.set_return_codes Upgrade.packages] in H. rewrite Ei in H.
  cbn [rbind] in H. injection H as <-.
  cbn [Upgrade.return_codes Upgrade.set_return_codes] in Hj.
  destruct (decide (i = j)) as [->|Hne'].
  - right. split; [reflexivity|]. exists name. split; [reflexivity|].
    apply index_Ok_inv in Ei as [Ei _]. exact Ei.
  - left. rewrite list_lookup_insert_ne in Hj by exact Hne'. exact Hj.
Qed.

Lemma shorten_name_Ok_Some (deb : option string) (short : string) :
  Upgrade._shorten_name deb = Ok short -> exists name, deb = Some name.
Proof. destruct deb as [name|]; [eauto|discriminate]. Qed.

Lemma launches_app (t1 t2 : list Event) :
  launches (t1 ++ t2) = (launches t1 + launches t2)%nat.
Proof. unfold launches. rewrite List.filter_app, length_app. reflexivity. Qed.

Lemma launches_removal (env : Env) (w : World) (name : string) :
  launches (removal env w name) = 0%nat.
Proof. unfold removal. destruct (decide _); reflexivity. Qed.

Lemma grown_refl (w : World) : grown_by w w [].
Proof. split; [rewrite app_nil_r; reflexivity|cbn; lia]. Qed.

Lemma grown_trans (w1 w2 w3 : World) (t1 t2 : list Event) :
  grown_by w1 w2 t1 -> grown_by w2 w3 t2 -> grown_by w1 w3 (t1 ++ t2).
Proof.
  intros [T1 P1] [T2 P2]. split.
  - rewrite T2, T1, app_assoc. reflexivity.
  - rewrite P2, P1, launches_app. lia.
Qed.

Lemma grows_ret {A : Type} (a : A) : grows (ret a).
Proof. intros w. exists []. apply grown_refl. Qed.

Lemma grows_raise {A : Type} (e : PyExc) : grows (@raise A e).
Proof. intros w. exists []. apply grown_refl. Qed.

Lemma grows_lift {A : Type} (r : result A) : grows (lift r).
Proof. intros w. exists []. apply grown_refl. Qed.

Lemma grows_bind {A B : Type} (m : M A) (k : A -> M B) :
  grows m -> (forall a, grows (k a)) -> grows (bind m k).
Proof.
  intros Hm Hk w. unfold bind. destruct (Hm w) as [t1 H1].
  destruct (m w) as [w1 [a|e]]; cbn [fst] in H1.
  - destruct (Hk a w1) as [t2 H2]. exists (t1 ++ t2).
    exact (grown_trans _ _ _ _ _ H1 H2).
  - exists t1. exact H1.
Qed.

Lemma grows_soupify (env : Env) (url : string) : grows (soupify env url).
Proof.
  unfold soupify. apply grows_bind; [|intros _; apply grows_lift].
  intros w. exists [EvPage url]. split; [reflexivity|cbn; lia].
Qed.

Lemma grows_kernel_init (env : Env) : grows (Kernel.__init__ env).
Proof.
  unfold Kernel.__init__, Kernel._update. apply grows_bind.
  - unfold Kernel._fetch_latest. apply grows_bind; [apply grows_soupify|].
    intros soup. destruct (td_latest_link soup); [apply grows_ret|apply grows_raise].
  - intros [|a [|b [|c [|d l]]]]; first [apply grows_ret | apply grows_raise].
Qed.

Lemma grows_fetch_deb_lst (env : Env) (self : Upgrade.obj) (arch : string) :
  grows (Upgrade.fetch_deb_lst env self arch).
Proof.
  unfold Upgrade.fetch_deb_lst. apply grows_bind; [apply grows_soupify|].
  intros soup. destruct (body soup) as [[links|]|];
    [apply grows_lift|apply grows_raise|apply grows_raise].
Qed.

Lemma grows_get_deb (env : Env) (self : Upgrade.obj) (deb : option string) :
  grows (Upgrade.get_deb env self deb).
Proof.
  intros w. destruct (Upgrade._shorten_name deb) as [short|e] eqn:Hs.
  - destruct (shorten_name_Ok_Some _ _ Hs) as [name ->].
    destruct (http_content env (w_gets w) (artifact_url self name)) as [data|e] eqn:Hc.
    + destruct (fs_open env (w_opens w) name) as [e|] eqn:Ho.
      * rewrite (get_deb_open_fails env self name short data e w Hs Hc Ho).
        exists (removal env w name ++ [EvGet (artifact_url self name)]).
        split; [cbn [fst w_trace]; rewrite app_assoc; reflexivity|].
        cbn [fst w_popens]. rewrite launches_app, launches_removal. cbn. lia.
      * rewrite (get_deb_run env self name short data w Hs Hc Ho).
        exists (removal env w name ++
                [EvGet (artifact_url self name); EvWrite name data]).
        split; [reflexivity|].
        cbn [fst after_get_deb w_popens].
        rewrite launches_app, launches_removal. cbn. lia.
    + rewrite (get_deb_download_fails env self name short e w Hs Hc).
      exists (removal env w name ++ [EvGet (artifact_url self name)]).
      split; [cbn [fst w_trace]; rewrite app_assoc; reflexivity|].
      cbn [fst w_popens]. rewrite launches_app, launches_removal. cbn. lia.
  - assert (Hg : Upgrade.get_deb env self deb w = (w, Raise e)).
    { unfold Upgrade.get_deb, bind, lift. rewrite Hs. reflexivity. }
    rewrite Hg. exists []. apply grown_refl.
Qed.

(** An installation that returns has launched the installer, has given
    it the password, and has checked its exit status. *)
Lemma install_deb_Ok_launch (env : Env) (self self' : Upgrade.obj)
    (deb : option string) (w w' : World) :
  Upgrade.install_deb env self deb w = (w', Ok self') ->
  exists (name : string) (proc : string -> Z) (pass : string),
    deb = Some name /\
    spawn env (w_popens w) (dpkg_argv name) = Ok proc /\
    SUDO_PASS env = Some pass /\
    w' = after_install_deb w name pass /\
    Upgrade._rc_check self (proc (pass +:+ newline)) (Some name) = Ok self'.
Proof.
  intros H. destruct (Upgrade._shorten_name deb) as [short|e] eqn:Hs.
  - destruct (shorten_name_Ok_Some _ _ Hs) as [name ->].
    destruct (spawn env (w_popens w) (dpkg_argv name)) as [proc|e] eqn:Hl.
    + destruct (SUDO_PASS env) as [pass|] eqn:Hp.
      * rewrite (install_deb_run env self name short pass proc w Hs Hp Hl) in H.
        injection H as <- H. exists name, proc, pass. auto.
      * destruct (install_deb_without_password env self name short proc w Hs Hp Hl)
          as (w1 & Hrun & _). rewrite Hrun in H. discriminate.
    + rewrite (install_deb_launch_fails env self name short e w Hs Hl) in H.
      discriminate.
  - unfold Upgrade.install_deb, bind, lift in H. rewrite Hs in H. discriminate.
Qed.

Lemma launched_with_zero_later (env : Env) (w w1 w' : World) (t : list Event)
    (name : string) :
  grown_by w w1 t -> launched_with_zero env w1 w' name ->
  launched_with_zero env w w' name.
Proof.
  intros [T P] (before & after & proc & pass & Ht & Hsp & Hp & Hz).
  exists (t ++ before), after, proc, pass.
  split; [rewrite Ht, T, <- !app_assoc; reflexivity|].
  split; [|auto].
  rewrite launches_app, Nat.add_assoc, <- P. exact Hsp.
Qed.

Lemma install_loop_success_means_zero (env : Env) (debs : list (option string))
    (self self' : Upgrade.obj) (w w' : World) (j : nat) :
  Upgrade.install_loop env self debs w = (w', Ok self') ->
  Upgrade.return_codes self' !! j = Some true ->
  (exists t, grown_by w w' t) /\
  (Upgrade.return_codes self !! j = Some true \/
   exists name, Upgrade.packages self !! j = Some (Some name) /\
                Some name ∈ debs /\ launched_with_zero env w w' name).
Proof.
  revert self w. induction debs as [|deb debs IH]; intros self w H Hj.
  - cbn in H. unfold ret in H. injection H as <- <-.
    split; [exists []; apply grown_refl|auto].
  - cbn [Upgrade.install_loop] in H.
    apply bind_Ok_inv in H as (w1 & [] & Hg & H).
    apply bind_Ok_inv in H as (w2 & self1 & H1 & H).
    destruct (grows_get_deb env self deb w) as [t1 G1]. rewrite Hg in G1. cbn [fst] in G1.
    apply install_deb_Ok_launch in H1 as (name & proc & pass & -> & Hsp & Hpass & -> & Hrc).
    pose proof (rc_check_monotone _ _ _ _ Hrc) as (Hpk & _ & _).
    assert (G2 : grown_by w1 (after_install_deb w1 name pass)
                   [EvPopen (dpkg_argv name); EvStdin (pass +:+ newline)]).
    { split; [reflexivity|cbn; lia]. }
    destruct (IH _ _ H Hj) as [[t3 G3] Hcase].
    pose proof (grown_trans _ _ _ _ _ G1 G2) as G12.
    split; [eexists; exact (grown_trans _ _ _ _ _ G12 G3)|].
    destruct Hcase as [Hj1|(name' & Hn & Hin & Hz)].
    + destruct (rc_check_new_success _ _ _ _ _ Hrc Hj1)
        as [Hj0|(Hz & name' & Hname & Hn)]; [auto|].
      injection Hname as <-.
      right. exists name. split; [exact Hn|]. split; [apply elem_of_cons; auto|].
      exists t1, t3, proc, pass.
      destruct G1 as [T1 P1]. destruct G3 as [T3 _].
      split; [rewrite T3; cbn [after_install_deb w_trace];
              rewrite T1, <- !app_assoc; reflexivity|].
      rewrite <- P1. auto.
    + right. exists name'. rewrite <- Hpk. split; [exact Hn|].
      split; [apply elem_of_cons; auto|].
      exact (launched_with_zero_later _ _ _ _ _ _ G12 Hz).
Qed.

Lemma all_true_four (l : list bool) :
  List.length l = 4%nat -> Py.all l = true -> l = [true; true; true; true].
Proof.
  destruct l as [|a [|b [|c [|d [|x l]]]]]; try discriminate.
  intros _. destruct a, b, c, d; try discriminate. reflexivity.
Qed.

(** X15: when [main] takes the branch of the message of success, the plan
    was complete, all four outcomes are successes, and for each of the
    four packages the trace of the run holds, after the trace it
    started from, a launch of the installer on that package followed by
    the password on its standard input, and the process that the
    environment answered to that very launch exits with status zero on
    that input. *)
Theorem success_message_means_four_zero_exits (env : Env) (w w' : World) :
  main env w = (w', Ok true) ->
  exists (u : Upgrade.obj) (p0 p1 p2 p3 : string),
    Upgrade.__init__ env w = (w', Ok u) /\
    Upgrade.packages u = [Some p0; Some p1; Some p2; Some p3] /\
    Upgrade.return_codes u = [true; true; true; true] /\
    launched_with_zero env w w' p0 /\ launched_with_zero env w w' p1 /\
    launched_with_zero env w w' p2 /\ launched_with_zero env w w' p3.
Proof.
  intros H. unfold main in H.
  apply bind_Ok_inv in H as (w1 & u & Hinit & H).
  unfold ret in H. injection H as -> Hall.
  pose proof Hinit as Hrun. unfold Upgrade.__init__ in Hrun.
  apply bind_Ok_inv in Hrun as (w2 & kern & Hk & Hrun).
  apply bind_Ok_inv in Hrun as (w3 & pk & Hf & Hrun).
  destruct (grows_kernel_init env w) as [t1 G1]. rewrite Hk in G1. cbn [fst] in G1.
  match type of Hf with Upgrade.fetch_deb_lst env ?s ?a w2 = _ =>
    destruct (grows_fetch_deb_lst env s a w2) as [t2 G2] end.
  rewrite Hf in G2. cbn [fst] in G2.
  pose proof (grown_trans _ _ _ _ _ G1 G2) as G12.
  apply fetch_deb_lst_Ok_inv in Hf as (url & soup & links & _ & _ & Hres).
  destruct (resolve_Ok_plan "amd64" links pk Hres)
    as (p0 & p1 & p2 & p3 & -> & _).
  unfold Upgrade.install_all_debs in Hrun.
  cbn [Upgrade.set_packages Upgrade.packages] in Hrun.
  pose proof (install_loop_monotone _ _ _ _ _ _ Hrun) as (Hpk & Hlen & _).
  cbn [Upgrade.packages Upgrade.return_codes List.length] in Hpk, Hlen.
  pose proof (all_true_four _ Hlen Hall) as Hrcs.
  assert (Hz : forall j name,
             [Some p0; Some p1; Some p2; Some p3] !! j = Some (Some name) ->
             launched_with_zero env w w' name).
  { intros j name Hj.
    assert (Hlt : (j < 4)%nat) by (apply lookup_lt_Some in Hj; exact Hj).
    assert (Htrue : Upgrade.return_codes u !! j = Some true).
    { rewrite Hrcs. do 4 (destruct j as [|j]; [reflexivity|]). lia. }
    destruct (install_loop_success_means_zero _ _ _ _ _ _ j Hrun Htrue)
      as [_ [Hinit0|(name' & Hn & _ & Hzero)]].
    - cbn [Upgrade.return_codes] in Hinit0.
      do 4 (destruct j as [|j]; [discriminate|]). lia.
    - change ([Some p0; Some p1; Some p2; Some p3] !! j = Some (Some name')) in Hn.
      rewrite Hj in Hn. injection Hn as <-.
      exact (launched_with_zero_later _ _ _ _ _ _ G12 Hzero). }
  exists u, p0, p1, p2, p3.
  split; [exact Hinit|]. split; [exact Hpk|]. split; [exact Hrcs|].
  split; [exact (Hz 0%nat p0 eq_refl)|]. split; [exact (Hz 1%nat p1 eq_refl)|].
  split; [exact (Hz 2%nat p2 eq_refl)|exact (Hz 3%nat p3 eq_refl)].
Qed.

(** The run of the example in which every installer exits with status
    zero. *)
Lemma success_message_means_four_zero_exits_witness :
  exists (w' : World) (u : Upgrade.obj) (p0 p1 p2 p3 : string),
    Upgrade.__init__ (ex_env ex_listing []) ex_world = (w', Ok u) /\
    Upgrade.packages u = [Some p0; Some p1; Some p2; Some p3] /\
    Upgrade.return_codes u = [true; true; true; true] /\
    launched_with_zero (ex_env ex_listing []) ex_world w' p0 /\
    launched_with_zero (ex_env ex_listing []) ex_world w' p1 /\
    launched_with_zero (ex_env ex_listing []) ex_world w' p2 /\
    launched_with_zero (ex_env ex_listing []) ex_world w' p3.
Proof.
  remember (main (ex_env ex_listing []) ex_world) as run eqn:E.
  assert (H : snd run = Ok true) by (subst run; vm_compute; reflexivity).
  destruct run as [w' r]. simpl in H. subst r. symmetry in E.
  exists w'. exact (success_message_means_four_zero_exits _ _ _ E).
Defined.

(** ** The order of the calls, on every path *)

Lemma rc_check_same_address (self self' : Upgrade.obj) (rc : Z) (deb deb' : option string) :
  Upgrade._rc_check self rc deb = Ok self' ->
  turn_calls self' deb' = turn_calls self deb'.
Proof.
  intros H. apply rc_check_Ok_inv in H as [->|(i & _ & ->)]; reflexivity.
Qed.

(** The calls of an installation, whatever its end. *)
Lemma install_deb_calls (env : Env) (self : Upgrade.obj) (name short : string) (w : World) :
  Upgrade._shorten_name (Some name) = Ok short ->
  exists (w' : World) (r : result Upgrade.obj),
    Upgrade.install_deb env self (Some name) w = (w', r) /\
    calls w' = calls w ++ [EvPopen (dpkg_argv name)] /\
    forall self', r = Ok self' ->
      exists rc, Upgrade._rc_check self rc (Some name) = Ok self'.
Proof.
  intros Hs.
  destruct (spawn env (w_popens w) (dpkg_argv name)) as [proc|e] eqn:Hl.
  - destruct (SUDO_PASS env) as [pass|] eqn:Hp.
    + eexists. eexists.
      split; [exact (install_deb_run env self name short pass proc w Hs Hp Hl)|].
      split.
      * unfold calls. cbn [after_install_deb w_trace].
        rewrite List.filter_app. reflexivity.
      * intros self' H. eauto.
    + destruct (install_deb_without_password env self name short proc w Hs Hp Hl)
        as (w' & Hrun & Ht & _).
      exists w', (Raise none_plus_str). split; [exact Hrun|]. split.
      * unfold calls. rewrite Ht, List.filter_app. reflexivity.
      * intros self' H. discriminate.
  - eexists. eexists.
    split; [exact (install_deb_launch_fails env self name short e w Hs Hl)|]. split.
    + unfold calls. cbn [w_trace]. rewrite List.filter_app. reflexivity.
    + intros self' H. discriminate.
Qed.

Lemma turn_calls_Some (self : Upgrade.obj) (name : string) :
  turn_calls self (Some name) = [EvGet (artifact_url self name); EvPopen (dpkg_argv name)].
Proof. reflexivity. Qed.

Lemma install_loop_calls (env : Env) (debs : list (option string))
    (self : Upgrade.obj) (w : World) :
  exists (n : nat) (tail : list Event),
    calls (fst (Upgrade.install_loop env self debs w)) =
      calls w ++ concat (map (turn_calls self) (take n debs)) ++ tail /\
    (tail = [] \/
     exists deb, debs !! n = Some deb /\ tail = take 1 (turn_calls self deb)).
Proof.
  revert self w. induction debs as [|deb debs IH]; intros self w.
  - exists 0%nat, []. cbn. rewrite app_nil_r. auto.
  - cbn [Upgrade.install_loop].
    destruct (Upgrade._shorten_name deb) as [short|e] eqn:Hs.
    + destruct (shorten_name_Ok_Some _ _ Hs) as [name ->].
      destruct (http_content env (w_gets w) (artifact_url self name)) as [data|e] eqn:Hc.
      * destruct (fs_open env (w_opens w) name) as [e|] eqn:Ho.
        { rewrite (bind_Raise _ _ _ _ _
                     (get_deb_open_fails env self name short data e w Hs Hc Ho)).
          cbn [fst]. exists 0%nat, [EvGet (artifact_url self name)]. split.
          - unfold calls. cbn [w_trace take map concat].
            rewrite !List.filter_app, calls_removal, app_nil_r. reflexivity.
          - right. exists (Some name). split; reflexivity. }
        rewrite (bind_Ok _ _ _ _ _ (get_deb_run env self name short data w Hs Hc Ho)).
        destruct (install_deb_calls env self name short
                    (after_get_deb env w (artifact_url self name) name data) Hs)
          as (w1 & r & Hrun & Hcalls & Hok).
        assert (Hc1 : calls w1 = calls w ++ turn_calls self (Some name)).
        { rewrite Hcalls, turn_calls_Some. unfold calls. cbn [after_get_deb w_trace].
          rewrite !List.filter_app, calls_removal. cbn [List.filter is_call].
          rewrite <- !app_assoc. reflexivity. }
        destruct r as [self'|e].
        -- rewrite (bind_Ok _ _ _ _ _ Hrun).
           destruct (IH self' w1) as (n & tail & Hn & Htail).
           destruct (Hok self' eq_refl) as (rc & Hrc).
           exists (S n), tail. split.
           ++ rewrite Hn, Hc1. cbn [take map concat].
              rewrite (map_ext_in (turn_calls self') (turn_calls self))
                by (intros d _; exact (rc_check_same_address _ _ _ _ d Hrc)).
              rewrite <- !app_assoc. reflexivity.
           ++ destruct Htail as [->|(d & Hd & Ht)]; [auto|].
              right. exists d. split; [exact Hd|].
              rewrite <- (rc_check_same_address _ _ _ _ d Hrc). exact Ht.
        -- rewrite (bind_Raise _ _ _ _ _ Hrun). cbn [fst].
           exists 1%nat, []. split; [|auto].
           rewrite Hc1. cbn [take map concat]. rewrite !app_nil_r. reflexivity.
      * rewrite (bind_Raise _ _ _ _ _ (get_deb_download_fails env self name short e w Hs Hc)).
        cbn [fst]. exists 0%nat, [EvGet (artifact_url self name)]. split.
        -- unfold calls. cbn [w_trace take map concat].
           rewrite !List.filter_app, calls_removal, app_nil_r. reflexivity.
        -- right. exists (Some name). split; reflexivity.
    + assert (Hg : Upgrade.get_deb env self deb w = (w, Raise e)).
      { unfold Upgrade.get_deb, bind, lift. rewrite Hs. reflexivity. }
      rewrite (bind_Raise _ _ _ _ _ Hg). cbn [fst].
      exists 0%nat, []. cbn. rewrite app_nil_r. auto.
Qed.

(** X16: however the loop of [install_all_debs] ends, the downloads and the
    launches it has made are those of its first turns, in the order of
    the packages, each launch right after the download of the same
    artifact; at most one download at the end is without its launch. *)
Theorem every_launch_follows_its_download
    (env : Env) (self : Upgrade.obj) (w : World) :
  exists (n : nat) (tail : list Event),
    calls (fst (Upgrade.install_all_debs env self w)) =
      calls w ++ concat (map (turn_calls self) (take n (Upgrade.packages self))) ++ tail /\
    (tail = [] \/
     exists deb, Upgrade.packages self !! n = Some deb /\
                 tail = take 1 (turn_calls self deb)).
Proof. exact (install_loop_calls env (Upgrade.packages self) self w). Qed.
